(** * ReviewService: a model of [src/app/src/services/reviews.py]

    The service is a thin layer over one MongoDB collection, "reviews".
    The collection, the driver calls the service makes on it (find, sort,
    skip, limit, to_list, find_one, insert_one, update_one, delete_one),
    the exceptions they raise and the logger are modelled explicitly; the
    service methods are then written in an exception-and-state monad so
    that each reads like its Python text. *)

From Stdlib Require Import ZArith Ascii.
From stdpp Require Import gmap strings list fin_maps sorting.

Open Scope string_scope.

(** Closed equations are settled by evaluation in the virtual machine. *)
Ltac by_evaluation :=
  lazymatch goal with
  | |- ?lhs = ?rhs => vm_cast_no_check (eq_refl rhs)
  end.

(** ** BSON object identifiers *)

Module ObjectId.

(** An [ObjectId] wraps the bytes of the identifier ([self.__id]), each
    byte a number below 256. *)
Definition t := list N.

(** Value of one hexadecimal digit, as [bytes.fromhex] reads it (both
    cases are accepted). *)
Definition hex_digit (c : ascii) : option N :=
  let n := N_of_ascii c in
  if (48 <=? n)%N && (n <=? 57)%N then Some (n - 48)%N
  else if (97 <=? n)%N && (n <=? 102)%N then Some (n - 87)%N
  else if (65 <=? n)%N && (n <=? 70)%N then Some (n - 55)%N
  else None.

(** [Py_ISSPACE]: space, \t, \n, \v, \f, \r. *)
Definition is_space (c : ascii) : bool :=
  let n := N_of_ascii c in
  (n =? 32)%N || ((9 <=? n)%N && (n <=? 13)%N).

(** [bytes.fromhex]: two digits per byte; ASCII white space is skipped
    between bytes, never inside one.  [None] stands for its
    [ValueError]. *)
Fixpoint fromhex (s : string) : option (list N) :=
  match s with
  | EmptyString => Some []
  | String c rest =>
      if is_space c then fromhex rest
      else
        match hex_digit c, rest with
        | Some top, String c' rest' =>
            match hex_digit c' with
            | Some bot =>
                match fromhex rest' with
                | Some bs => Some ((top * 16 + bot)%N :: bs)
                | None => None
                end
            | None => None
            end
        | _, _ => None
        end
  end.

(** [ObjectId(oid)] for a [str] argument ([ObjectId.__validate]): the
    string must have length 24 and be accepted by [bytes.fromhex];
    [None] stands for [bson.errors.InvalidId]. *)
Definition of_str (oid : string) : option t :=
  if decide (String.length oid = 24) then fromhex oid else None.

(** [str(oid)]: the lower-case hexadecimal form. *)
Definition hex_char (n : N) : ascii :=
  if (n <? 10)%N then ascii_of_N (48 + n) else ascii_of_N (87 + n).

Fixpoint to_str (o : t) : string :=
  match o with
  | [] => EmptyString
  | b :: o' => String (hex_char (b / 16)) (String (hex_char (b mod 16)) (to_str o'))
  end.

(** The order of the [_id] index on object identifiers: byte by byte. *)
Fixpoint leb (a b : t) : bool :=
  match a, b with
  | [], _ => true
  | _ :: _, [] => false
  | x :: a', y :: b' =>
      if (x <? y)%N then true
      else if (x =? y)%N then leb a' b'
      else false
  end.

Definition le (a b : t) : Prop := leb a b = true.

#[global] Instance le_dec a b : Decision (le a b).
Proof. unfold le. apply _. Defined.

End ObjectId.

(** ** Documents *)

(** The BSON values a review document holds. *)
Inductive value :=
  | VNull
  | VBool (b : bool)
  | VInt (z : Z)
  | VStr (s : string)
  | VOid (o : ObjectId.t).

#[global] Instance value_eq_dec : EqDecision value.
Proof. solve_decision. Defined.

(** A Python [dict] with string keys: a raw document, a model dump, the
    operand of [$set]. *)
Abbreviation dict := (gmap string value).

(** ** Exceptions, log records and the world the service runs in *)

Inductive exn :=
  | HTTPException (status_code : Z) (detail : string)
  | InvalidId (oid : string)          (* bson.errors.InvalidId *)
  | ValueError (msg : string)
  | OverflowError                     (* an integer BSON cannot hold *)
  | ValidationError (doc : dict)      (* pydantic, on building a model *)
  | PyMongoError (msg : string)       (* a fault of the database layer *)
  | DuplicateKeyError (key : ObjectId.t)
  | WriteError (msg : string).

Module HTTPStatus.
Definition NOT_FOUND : Z := 404.
Definition CONFLICT : Z := 409.
Definition INTERNAL_SERVER_ERROR : Z := 500.
End HTTPStatus.

(** One call [ugc_logger.error(f"{msg}: {exc}")]. *)
Record log_record := LogError { log_msg : string; log_exc : exn }.

(** The collection maps each [_id] to the other fields of its document
    ([_id] is unique and immutable in MongoDB).  [faults] is the fate of
    the coming round trips to the database, in order: [Some msg] makes
    the round trip raise a database-layer fault, [None] lets it through;
    past the end of the list every round trip succeeds. *)
Record world := World {
  reviews : gmap ObjectId.t dict;
  logs : list log_record;
  faults : list (option string)
}.

Inductive result (A : Type) :=
  | Returned (a : A)
  | Raised (e : exn).
Arguments Returned {A} a.
Arguments Raised {A} e.

(** A computation reads and writes the world and returns or raises. *)
Definition M (A : Type) : Type := world → result A * world.

#[global] Instance M_ret : MRet M := λ A a w, (Returned a, w).
#[global] Instance M_bind : MBind M := λ A B f m w,
  match m w with
  | (Returned a, w') => f a w'
  | (Raised e, w') => (Raised e, w')
  end.

Definition raise {A} (e : exn) : M A := λ w, (Raised e, w).

(** [try: body / except Exception as exc: handler exc]. *)
Definition try_except {A} (body : M A) (handler : exn → M A) : M A := λ w,
  match body w with
  | (Returned a, w') => (Returned a, w')
  | (Raised e, w') => handler e w'
  end.

Definition get_reviews : M (gmap ObjectId.t dict) := λ w, (Returned (reviews w), w).

Definition put_reviews (r : gmap ObjectId.t dict) : M () := λ w,
  (Returned (), {| reviews := r; logs := logs w; faults := faults w |}).

Definition ugc_logger_error (msg : string) (exc : exn) : M () := λ w,
  (Returned (),
   {| reviews := reviews w; logs := logs w ++ [LogError msg exc]; faults := faults w |}).

(** One awaited round trip to the database. *)
Definition round_trip : M () := λ w,
  match faults w with
  | [] => (Returned (), w)
  | None :: fs => (Returned (), {| reviews := reviews w; logs := logs w; faults := fs |})
  | Some msg :: fs =>
      (Raised (PyMongoError msg), {| reviews := reviews w; logs := logs w; faults := fs |})
  end.

(** The next [n] round trips meet no fault. *)
Fixpoint quiet (n : nat) (fs : list (option string)) : bool :=
  match n, fs with
  | O, _ => true
  | S _, [] => true
  | S n', None :: fs' => quiet n' fs'
  | S _, Some _ :: _ => false
  end.

(** Python truthiness of what [find_one] returns: [None] and the empty
    [dict] are false. *)
Definition truthy (r : option dict) : bool :=
  match r with
  | None => false
  | Some d => bool_decide (d ≠ ∅)
  end.

(** ** The collection, as the driver presents it *)

(** The document stored under [oid], as a query returns it. *)
Definition raw_doc (oid : ObjectId.t) (body : dict) : dict :=
  <["_id" := VOid oid]> body.

(** A query filter [{k1: v1, ...}] matches a document that has every
    listed field with the listed value; [null] also matches a missing
    field. *)
Definition matches (flt doc : dict) : bool :=
  bool_decide (map_Forall (λ k v, doc !! k = Some v ∨ (v = VNull ∧ doc !! k = None)) flt).

(** The first document matching the filter, in the collection's own
    order (which MongoDB leaves unspecified when no sort is given).
    Stored identifiers are twelve bytes, and an identifier in a filter
    is compared with them byte for byte.  A filter identifier of another
    length (which [ObjectId] builds from a 24-character string with
    white space) is outside this model: the driver's encoder sends
    twelve bytes whatever the length, reading past the identifier's own.
    The statements on lookups by identifier are therefore made for
    twelve-byte identifiers, or for a document stored under the very
    identifier. *)
Definition find_first (flt : dict) (r : gmap ObjectId.t dict) : option (ObjectId.t * dict) :=
  List.find (λ kv, matches flt (raw_doc kv.1 kv.2)) (map_to_list r).

(** [collection.find_one(flt)]. *)
Definition find_one (flt : dict) : M (option dict) :=
  round_trip;;
  r ← get_reviews;
  mret ((λ kv, raw_doc kv.1 kv.2) <$> find_first flt r).

(** [collection.insert_one(document)].  The documents the service inserts
    are model dumps, which have no [_id] entry (a pydantic field name
    cannot begin with an underscore), so the driver adds a generated
    identifier: [new_oid] is the one [ObjectId()] produces for this call.
    The [_id] index rejects an identifier already in use.  The result is
    [InsertOneResult.inserted_id]. *)
Definition insert_one (new_oid : ObjectId.t) (document : dict) : M ObjectId.t :=
  round_trip;;
  r ← get_reviews;
  match r !! new_oid with
  | Some _ => raise (DuplicateKeyError new_oid)
  | None => put_reviews (<[new_oid := document]> r);; mret new_oid
  end.

(** [collection.update_one(flt, {"$set": fields})]: the first matching
    document gets the listed fields; the others are kept.  [_id] is
    immutable: setting it to its own value changes nothing, anything
    else is refused by the server.  The result is
    [UpdateResult.modified_count], which is 0 when the document already
    has all the listed values (an empty operand lists nothing and is
    such a no-op, as in MongoDB 5.0 and later). *)
Definition update_one_set (flt fields : dict) : M Z :=
  round_trip;;
  r ← get_reviews;
  match find_first flt r with
  | None => mret 0%Z
  | Some (oid, body) =>
      if bool_decide (fields !! "_id" = None ∨ fields !! "_id" = Some (VOid oid)) then
        let body' := delete "_id" fields ∪ body in
        if bool_decide (body' = body) then mret 0%Z
        else put_reviews (<[oid := body']> r);; mret 1%Z
      else
        raise (WriteError "Performing an update on the path '_id' would modify the immutable field '_id'")
  end.

(** [collection.delete_one(flt)]; the result is
    [DeleteResult.deleted_count]. *)
Definition delete_one (flt : dict) : M Z :=
  round_trip;;
  r ← get_reviews;
  match find_first flt r with
  | None => mret 0%Z
  | Some (oid, _) => put_reviews (delete oid r);; mret 1%Z
  end.

(** A cursor is built without talking to the database; only fetching
    from it does. *)
Record cursor := Cursor { sort_by_id : bool; c_skip : Z; c_limit : Z }.

(** [collection.find()]. *)
Definition find : cursor := {| sort_by_id := false; c_skip := 0; c_limit := 0 |}.

(** [cursor.sort("_id")]. *)
Definition sort_id (c : cursor) : cursor :=
  {| sort_by_id := true; c_skip := c_skip c; c_limit := c_limit c |}.

(** [cursor.skip(n)] refuses a negative count. *)
Definition skip (n : Z) (c : cursor) : M cursor :=
  if (n <? 0)%Z then raise (ValueError "skip must be >= 0")
  else mret {| sort_by_id := sort_by_id c; c_skip := n; c_limit := c_limit c |}.

(** [cursor.limit(n)]. *)
Definition limit (n : Z) (c : cursor) : M cursor :=
  mret {| sort_by_id := sort_by_id c; c_skip := c_skip c; c_limit := n |}.

Definition key_le (a b : ObjectId.t * dict) : Prop := ObjectId.le a.1 b.1.

#[global] Instance key_le_dec a b : Decision (key_le a b).
Proof. unfold key_le. apply _. Defined.

(** The documents a cursor yields: sorted by [_id] when asked, then the
    skipped ones dropped, then cut at the limit (0 means no limit, a
    negative limit counts as its absolute value). *)
Definition cursor_documents (c : cursor) (r : gmap ObjectId.t dict) : list dict :=
  let all := if sort_by_id c then merge_sort key_le (map_to_list r) else map_to_list r in
  let skipped := drop (Z.to_nat (c_skip c)) all in
  let limited := if (c_limit c =? 0)%Z then skipped else take (Z.abs_nat (c_limit c)) skipped in
  (λ kv, raw_doc kv.1 kv.2) <$> limited.

(** The integers BSON can hold: eight bytes, signed. *)
Definition fits_int64 (n : Z) : bool :=
  (-9223372036854775808 <=? n)%Z && (n <? 9223372036854775808)%Z.

(** [await cursor.to_list(length=n)]: refuses a negative length, then
    fetches; at most [n] documents are returned.  The fetch reaches the
    server first (where a fault of the database layer shows) and then
    encodes the [find] command with the cursor's skip count and the
    absolute value of its limit: one that does not fit eight bytes makes
    the encoder raise [OverflowError], and nothing is fetched. *)
Definition to_list (c : cursor) (n : Z) : M (list dict) :=
  if (n <? 0)%Z then raise (ValueError "length must be non-negative")
  else
    round_trip;;
    if fits_int64 (c_skip c) && fits_int64 (Z.abs (c_limit c)) then
      r ← get_reviews;
      mret (take (Z.to_nat n) (cursor_documents c r))
    else raise OverflowError.

(** ** The data transfer contracts ([src.api.v1.schemas]) *)

(** Modelled from the spec: the field names the spec gives the review
    records ([id], [film_id], [user_id]) and the store's [_id]; the
    declarations themselves are in [src.api.v1.schemas], outside the
    service module. *)
Definition reserved (k : string) : Prop := k ∈ ["_id"; "id"; "film_id"; "user_id"].

(** Modelled from the spec: the "free-form review content fields" of a
    record built from keyword arguments are the arguments that are not
    reserved. *)
Definition content_of (kw : dict) : dict := filter (λ kv, ¬ reserved kv.1) kw.

Module ReviewIn.
(** Modelled from the spec: the declaration of [ReviewIn] is not part of
    the service module.  The spec gives [ReviewIn{film_id, ...content}]:
    the film identifier and the free-form content fields the client
    submits. *)
Record t := Make { film_id : string; content : dict }.

(** Modelled from the spec: the content fields of [ReviewIn] have names
    of their own, none of them reserved. *)
Definition wf (data : t) : Prop := ∀ k, reserved k → content data !! k = None.

#[global] Instance wf_dec data : Decision (wf data).
Proof.
  refine (cast_if (decide (Forall (λ k, content data !! k = None)
                                  ["_id"; "id"; "film_id"; "user_id"])));
    unfold wf, reserved; rewrite Forall_forall in *; auto.
Defined.

(** Modelled from the spec: [data.model_dump()], the fields of
    [ReviewIn] under their names. *)
Definition model_dump (data : t) : dict :=
  <["film_id" := VStr (film_id data)]> (content data).
End ReviewIn.

Module Review.
(** Modelled from the spec: the declaration of [Review] is not part of
    the service module.  The spec gives
    [Review{film_id, user_id, ...content}]. *)
Record t := Make { film_id : string; user_id : string; content : dict }.

(** Modelled from the spec: the constructor [Review], given keyword
    arguments [kw]; both identifiers are required strings. *)
Definition new (kw : dict) : M t :=
  match kw !! "film_id", kw !! "user_id" with
  | Some (VStr f), Some (VStr u) =>
      mret {| film_id := f; user_id := u; content := content_of kw |}
  | _, _ => raise (ValidationError kw)
  end.

(** Modelled from the spec: [review.model_dump()], the fields of
    [Review] under their names. *)
Definition model_dump (r : t) : dict :=
  <["film_id" := VStr (film_id r)]> (<["user_id" := VStr (user_id r)]> (content r)).
End Review.

Module ReviewFromDB.
(** Modelled from the spec: the declaration of [ReviewFromDB] is not part
    of the service module.  The spec gives
    [ReviewFromDB{id, film_id, user_id, ...content}], [id] being the
    database-assigned [_id] in its canonical string form; a record not
    yet stored has none. *)
Record t := Make {
  id : option string;
  film_id : string;
  user_id : string;
  content : dict
}.

(** Modelled from the spec: the constructor [ReviewFromDB], given
    keyword arguments [kw]; both identifiers are required strings, and
    [id] is read from [_id] ("marshaled to a canonical string form"),
    absent when there is none. *)
Definition new (kw : dict) : M t :=
  match kw !! "film_id", kw !! "user_id" with
  | Some (VStr f), Some (VStr u) =>
      mret {| id := match kw !! "_id" with
                    | Some (VOid o) => Some (ObjectId.to_str o)
                    | Some (VStr s) => Some s
                    | _ => None
                    end;
              film_id := f; user_id := u; content := content_of kw |}
  | _, _ => raise (ValidationError kw)
  end.

(** Modelled from the spec: [r.model_dump()], the fields of
    [ReviewFromDB] under their own names, an unset [id] as [None]. *)
Definition model_dump (r : t) : dict :=
  <["id" := match id r with Some s => VStr s | None => VNull end]>
    (<["film_id" := VStr (film_id r)]> (<["user_id" := VStr (user_id r)]> (content r))).
End ReviewFromDB.

(** [ObjectId(review_id)] inside the service: a malformed string raises
    [InvalidId]. *)
Definition ObjectId_new (review_id : string) : M ObjectId.t :=
  match ObjectId.of_str review_id with
  | Some oid => mret oid
  | None => raise (InvalidId review_id)
  end.

(** [{k: v for k, v in review_data.items()}]. *)
Definition dict_items_copy (review_data : dict) : dict :=
  list_to_map (map_to_list review_data).

(** ** ReviewService *)

Module ReviewService.

(** [check_if_review_exist(movie_id, user_id)]. *)
Definition check_if_review_exist (movie_id user_id : string) : M (option dict) :=
  find_one {[ "film_id" := VStr movie_id; "user_id" := VStr user_id ]}.

(** [get(page_number, per_page)].  Only the construction of the cursor
    is inside the [try]; the fetch (with its [OverflowError] for a skip
    count or a page size of [2^63] or more) and the conversion come
    after it. *)
Definition get (page_number per_page : Z) : M (list ReviewFromDB.t) :=
  reviews ← try_except
    (c ← skip ((page_number - 1) * per_page) (sort_id find);
     limit per_page c)
    (λ exc,
       ugc_logger_error "Error while getting reviews" exc;;
       raise (HTTPException HTTPStatus.INTERNAL_SERVER_ERROR "Error while getting reviews"));
  reviews_list ← to_list reviews per_page;
  mapM ReviewFromDB.new reviews_list.

(** [add(user_id, data)]; [new_oid] is the identifier the driver
    generates if the insertion is reached. *)
Definition add (new_oid : ObjectId.t) (user_id : string) (data : ReviewIn.t)
  : M (option dict) :=
  review ← Review.new (<["user_id" := VStr user_id]> (ReviewIn.model_dump data));
  let film_id := Review.film_id review in
  is_review_exist ← check_if_review_exist film_id user_id;
  if truthy is_review_exist then
    raise (HTTPException HTTPStatus.CONFLICT
             ("Review by user " +:+ user_id +:+ " for movie " +:+ film_id +:+ " already exist"))
  else
    from_db ← ReviewFromDB.new (Review.model_dump review);
    let review_data_for_db := ReviewFromDB.model_dump from_db in
    new_data ← try_except
      (insert_one new_oid review_data_for_db)
      (λ exc,
         ugc_logger_error
           ("Error while adding review by " +:+ user_id +:+ " for movie " +:+ film_id) exc;;
         raise (HTTPException HTTPStatus.INTERNAL_SERVER_ERROR
                  ("Error while adding review by " +:+ user_id +:+ " for movie " +:+ film_id)));
    find_one {[ "_id" := VOid new_data ]}.

Section Update.
(** [jsonable_encoder] applied to a [ReviewFromDB]: the flat field
    mapping of the replacement record.  Which names it gives the fields
    is decided by the record's declaration, so it is left open. *)
Variable jsonable_encoder : ReviewFromDB.t → dict.

(** [update(review_id, data)]; Python's [None] is the result when the
    update changed nothing. *)
Definition update (review_id : string) (data : ReviewFromDB.t) : M (option dict) :=
  let review_data := jsonable_encoder data in
  let prep_review_data := dict_items_copy review_data in
  oid ← ObjectId_new review_id;
  is_review_exist ← find_one {[ "_id" := VOid oid ]};
  if negb (truthy is_review_exist) then
    raise (HTTPException HTTPStatus.NOT_FOUND
             ("Not found review " +:+ review_id +:+ " for update"))
  else
    oid ← ObjectId_new review_id;
    modified_count ← update_one_set {[ "_id" := VOid oid ]} prep_review_data;
    if (modified_count =? 1)%Z then
      oid ← ObjectId_new review_id;
      find_one {[ "_id" := VOid oid ]}
    else mret None.
End Update.

(** [remove(review_id)]. *)
Definition remove (review_id : string) : M () :=
  oid ← ObjectId_new review_id;
  deleted_count ← delete_one {[ "_id" := VOid oid ]};
  if negb (deleted_count =? 1)%Z then
    raise (HTTPException HTTPStatus.NOT_FOUND
             ("Not found review " +:+ review_id +:+ " for deletion"))
  else mret ().

End ReviewService.

(** ** Vocabulary of the statements *)

(** The world after one fault-free or faulty round trip: the head of the
    schedule is used up. *)
Definition advance (w : world) : world :=
  {| reviews := reviews w; logs := logs w; faults := tail (faults w) |}.

(** The world with the collection replaced. *)
Definition with_reviews (r : gmap ObjectId.t dict) (w : world) : world :=
  {| reviews := r; logs := logs w; faults := faults w |}.

(** The fault, if any, that the next round trip meets. *)
Definition next_fault (w : world) : option string :=
  match faults w with
  | Some msg :: _ => Some msg
  | _ => None
  end.

(** A stored document is a review of film [film_id] by user [user_id]. *)
Definition review_of (film_id user_id : string) (body : dict) : Prop :=
  body !! "film_id" = Some (VStr film_id) ∧ body !! "user_id" = Some (VStr user_id).

(** The stored reviews of one (film, user) pair. *)
Definition reviews_of_pair (film_id user_id : string) (r : gmap ObjectId.t dict)
  : gmap ObjectId.t dict :=
  filter (λ kv, review_of film_id user_id kv.2) r.

(** A stored document from which a [ReviewFromDB] can be built. *)
Definition is_review (body : dict) : Prop :=
  ∃ f u, body !! "film_id" = Some (VStr f) ∧ body !! "user_id" = Some (VStr u).

(** The record [ReviewFromDB.new] builds from a stored document. *)
Definition record_of (kv : ObjectId.t * dict) (rec : ReviewFromDB.t) : Prop :=
  ∀ w, ReviewFromDB.new (raw_doc kv.1 kv.2) w = (Returned rec, w).

(** The document [add] stores for [data] submitted by [user_id]. *)
Definition stored_fields (user_id : string) (data : ReviewIn.t) : dict :=
  <["id" := VNull]>
    (<["film_id" := VStr (ReviewIn.film_id data)]>
       (<["user_id" := VStr user_id]> (content_of (ReviewIn.content data)))).

(** How [add] ends when the insertion raises [exc]: the failure is
    logged and surfaced as an internal error. *)
Definition add_insert_failed (user_id film_id : string) (exc : exn) (w : world)
  : result (option dict) * world :=
  (Raised (HTTPException HTTPStatus.INTERNAL_SERVER_ERROR
             ("Error while adding review by " +:+ user_id +:+ " for movie " +:+ film_id)),
   (ugc_logger_error
      ("Error while adding review by " +:+ user_id +:+ " for movie " +:+ film_id) exc w).2).

(** No pair of film and user has more than one stored review. *)
Definition one_review_per_pair (r : gmap ObjectId.t dict) : Prop :=
  ∀ film_id user_id, (size (reviews_of_pair film_id user_id r) ≤ 1)%nat.

(** An identifier as the driver generates and stores it: twelve bytes. *)
Definition generated (o : ObjectId.t) : Prop :=
  length o = 12 ∧ Forall (λ b, (b < 256)%N) o.

(** The string is 24 hexadecimal digits: the strings [ObjectId] reads as
    twelve-byte identifiers. *)
Definition hex24 (s : string) : bool :=
  bool_decide (String.length s = 24)
  && forallb (λ c, bool_decide (is_Some (ObjectId.hex_digit c))) (String.list_ascii_of_string s).

(** The text [s] contains [sub]. *)
Definition mentions (s sub : string) : Prop := ∃ pre post, s = pre +:+ sub +:+ post.

(** ** Sample data *)

Module Sample.

Definition oid_a : ObjectId.t := [0; 0; 0; 0; 0; 0; 0; 0; 0; 0; 0; 1]%N.
Definition oid_b : ObjectId.t := [0; 0; 0; 0; 0; 0; 0; 0; 0; 0; 0; 2]%N.

Definition id_a : string := "000000000000000000000001".
Definition id_b : string := "000000000000000000000002".

(** The submissions of the spec's example. *)
Definition great : ReviewIn.t :=
  {| ReviewIn.film_id := "f1"; ReviewIn.content := {[ "text" := VStr "great" ]} |}.
Definition bad : ReviewIn.t :=
  {| ReviewIn.film_id := "f1"; ReviewIn.content := {[ "text" := VStr "bad" ]} |}.
Definition other : ReviewIn.t :=
  {| ReviewIn.film_id := "f2"; ReviewIn.content := {[ "text" := VStr "fine" ]} |}.

Definition empty : world := {| reviews := ∅; logs := []; faults := [] |}.

(** After [add("u1", great)] under [oid_a]. *)
Definition one : world :=
  {| reviews := {[ oid_a := stored_fields "u1" great ]}; logs := []; faults := [] |}.

(** After a further [add("u2", other)] under [oid_b]. *)
Definition two : world :=
  {| reviews := <[oid_b := stored_fields "u2" other]> {[ oid_a := stored_fields "u1" great ]};
     logs := []; faults := [] |}.

(** The replacement record equal to what [one] stores under [oid_a]. *)
Definition great_record : ReviewFromDB.t :=
  {| ReviewFromDB.id := None; ReviewFromDB.film_id := "f1"; ReviewFromDB.user_id := "u1";
     ReviewFromDB.content := {[ "text" := VStr "great" ]} |}.

(** An encoder that calls the identifier [_id] and one that calls it
    [id]. *)
Definition encode_alias (r : ReviewFromDB.t) : dict :=
  <["_id" := match ReviewFromDB.id r with Some s => VStr s | None => VNull end]>
    (delete "id" (ReviewFromDB.model_dump r)).
Definition encode_name (r : ReviewFromDB.t) : dict := ReviewFromDB.model_dump r.

End Sample.

(** * Properties *)

(** ** The order on identifiers *)

Lemma leb_total a b : ObjectId.leb a b = true ∨ ObjectId.leb b a = true.
Proof.
  revert b; induction a as [|x a IH]; intros [|y b]; simpl; auto.
  destruct (N.ltb_spec x y), (N.ltb_spec y x); auto; try lia.
  assert (x = y) as -> by lia. rewrite N.eqb_refl. apply IH.
Qed.

Lemma leb_trans a b c :
  ObjectId.leb a b = true → ObjectId.leb b c = true → ObjectId.leb a c = true.
Proof.
  revert b c; induction a as [|x a IH]; intros [|y b] [|z c]; simpl; auto; try discriminate.
  destruct (N.ltb_spec x y), (N.ltb_spec y z), (N.ltb_spec x z),
    (N.eqb_spec x y), (N.eqb_spec y z), (N.eqb_spec x z);
    try discriminate; try lia; eauto.
Qed.

#[global] Instance key_le_total : Total key_le.
Proof. intros a b. apply leb_total. Qed.

#[global] Instance key_le_trans : Transitive key_le.
Proof. intros a b c. apply leb_trans. Qed.

(** ** Running the monad *)

Lemma bind_run {A B} (m : M A) (f : A → M B) w :
  (m ≫= f) w =
  match m w with
  | (Returned a, w') => f a w'
  | (Raised e, w') => (Raised e, w')
  end.
Proof. reflexivity. Qed.

Lemma round_trip_run w :
  round_trip w =
  (match next_fault w with Some msg => Raised (PyMongoError msg) | None => Returned () end,
   advance w).
Proof. destruct w as [r l [|[msg|] fs]]; reflexivity. Qed.

Lemma quiet_next n w : quiet (S n) (faults w) = true → next_fault w = None.
Proof. destruct w as [r l [|[msg|] fs]]; cbv [next_fault]; simpl; congruence. Qed.

Lemma quiet_advance n w : quiet (S n) (faults w) = true → quiet n (faults (advance w)) = true.
Proof. destruct w as [r l [|[msg|] fs]]; simpl; try congruence. by destruct n. Qed.

Lemma find_one_run flt w :
  find_one flt w =
  (match next_fault w with
   | Some msg => Raised (PyMongoError msg)
   | None => Returned ((λ kv, raw_doc kv.1 kv.2) <$> find_first flt (reviews w))
   end, advance w).
Proof.
  unfold find_one. rewrite bind_run, round_trip_run.
  destruct (next_fault w); reflexivity.
Qed.

Lemma raw_doc_truthy oid body : truthy (Some (raw_doc oid body)) = true.
Proof.
  simpl. apply bool_decide_eq_true. intros E.
  assert (raw_doc oid body !! "_id" = None) as H by (rewrite E; apply lookup_empty).
  unfold raw_doc in H. by rewrite lookup_insert_eq in H.
Qed.

(** ** Queries *)

Lemma matches_id oid k body :
  matches {[ "_id" := VOid oid ]} (raw_doc k body) = bool_decide (k = oid).
Proof.
  unfold matches. apply bool_decide_ext. rewrite map_Forall_singleton.
  unfold raw_doc. rewrite lookup_insert_eq. split.
  - intros [H | [H _]]; [by inversion H | discriminate].
  - intros ->. by left.
Qed.

Lemma matches_pair f u k body :
  matches {[ "film_id" := VStr f; "user_id" := VStr u ]} (raw_doc k body) = true
  ↔ review_of f u body.
Proof.
  unfold matches, review_of, raw_doc. rewrite bool_decide_eq_true.
  rewrite map_Forall_insert by done. rewrite map_Forall_singleton.
  rewrite !lookup_insert_ne by done. split.
  - intros [[H1 | [? _]] [H2 | [? _]]]; done.
  - intros [H1 H2]; split; by left.
Qed.

Lemma find_first_Some flt r k body :
  find_first flt r = Some (k, body) →
  r !! k = Some body ∧ matches flt (raw_doc k body) = true.
Proof.
  unfold find_first. intros H. apply find_some in H as [Hin Hm].
  split; [|done]. apply elem_of_map_to_list. by apply list_elem_of_In.
Qed.

Lemma find_first_None flt r :
  find_first flt r = None ↔ ∀ k body, r !! k = Some body → matches flt (raw_doc k body) = false.
Proof.
  unfold find_first. split.
  - intros H k body Hk. apply (find_none _ _ H (k, body)).
    apply list_elem_of_In. by apply elem_of_map_to_list.
  - intros H. destruct (List.find _ _) as [[k body]|] eqn:E; [|done].
    apply find_some in E as [Hin Hm]. apply list_elem_of_In, elem_of_map_to_list in Hin.
    simpl in Hm. by rewrite (H _ _ Hin) in Hm.
Qed.

Lemma find_first_id oid r :
  find_first {[ "_id" := VOid oid ]} r = (λ body, (oid, body)) <$> r !! oid.
Proof.
  destruct (find_first _ r) as [[k body]|] eqn:E.
  - apply find_first_Some in E as [Hk Hm]. rewrite matches_id in Hm.
    apply bool_decide_eq_true in Hm as ->. by rewrite Hk.
  - destruct (r !! oid) as [body|] eqn:Hk; [|done].
    rewrite find_first_None in E. specialize (E _ _ Hk).
    rewrite matches_id in E. by apply bool_decide_eq_false in E.
Qed.

Lemma find_one_id_run oid w :
  find_one {[ "_id" := VOid oid ]} w =
  (match next_fault w with
   | Some msg => Raised (PyMongoError msg)
   | None => Returned (raw_doc oid <$> reviews w !! oid)
   end, advance w).
Proof.
  rewrite find_one_run, find_first_id. destruct (next_fault w); [done|].
  by destruct (reviews w !! oid).
Qed.

(** ** remove *)

Lemma delete_one_id_run oid w :
  delete_one {[ "_id" := VOid oid ]} w =
  match next_fault w with
  | Some msg => (Raised (PyMongoError msg), advance w)
  | None =>
      match reviews w !! oid with
      | Some _ => (Returned 1%Z, with_reviews (delete oid (reviews w)) (advance w))
      | None => (Returned 0%Z, advance w)
      end
  end.
Proof.
  unfold delete_one. rewrite bind_run, round_trip_run.
  destruct (next_fault w); [done|].
  rewrite bind_run. cbn [get_reviews]. rewrite find_first_id. cbn [advance reviews].
  by destruct (reviews w !! oid).
Qed.

Lemma remove_run review_id w :
  ReviewService.remove review_id w =
  match ObjectId.of_str review_id with
  | None => (Raised (InvalidId review_id), w)
  | Some oid =>
      match next_fault w with
      | Some msg => (Raised (PyMongoError msg), advance w)
      | None =>
          match reviews w !! oid with
          | Some _ => (Returned (), with_reviews (delete oid (reviews w)) (advance w))
          | None =>
              (Raised (HTTPException HTTPStatus.NOT_FOUND
                         ("Not found review " +:+ review_id +:+ " for deletion")),
               advance w)
          end
      end
  end.
Proof.
  unfold ReviewService.remove, ObjectId_new. rewrite bind_run.
  destruct (ObjectId.of_str review_id) as [oid|]; [|done].
  cbn [mret M_ret]. rewrite bind_run, delete_one_id_run.
  destruct (next_fault w); [done|].
  by destruct (reviews w !! oid).
Qed.

(** C6, as the code has it.  [remove] on an identifier of 24
    hexadecimal digits (one that [ObjectId] reads as twelve bytes), its
    round trip to the database meeting no fault.  If no stored document
    has the
    identifier, the call fails with NotFound (404), the detail names the
    identifier, and the collection is as it was.  If a document has it,
    the call returns, exactly that document is gone (the collection is
    one smaller), every other document is as it was, and a lookup by the
    identifier afterwards returns Python's [None]. *)
Theorem remove_absent_or_present (w : world) (review_id : string) (oid : ObjectId.t) :
  ObjectId.of_str review_id = Some oid →
  generated oid →
  quiet 1 (faults w) = true →
  (reviews w !! oid = None →
     ReviewService.remove review_id w =
       (Raised (HTTPException 404 ("Not found review " +:+ review_id +:+ " for deletion")),
        advance w)
     ∧ reviews (advance w) = reviews w)
  ∧ (is_Some (reviews w !! oid) →
     ∃ w', ReviewService.remove review_id w = (Returned (), w')
       ∧ reviews w' = delete oid (reviews w)
       ∧ reviews w' !! oid = None
       ∧ (∀ k, k ≠ oid → reviews w' !! k = reviews w !! k)
       ∧ S (size (reviews w')) = size (reviews w)
       ∧ (quiet 1 (faults w') = true →
          find_one {[ "_id" := VOid oid ]} w' = (Returned None, advance w'))).
Proof.
  intros Hid _ Hq. rewrite remove_run, Hid, (quiet_next _ _ Hq). split.
  - intros ->. done.
  - intros [body Hb]. rewrite Hb. eexists; split; [done|].
    cbn [with_reviews advance reviews]. repeat split.
    + apply lookup_delete_eq.
    + intros k Hk. by apply lookup_delete_ne.
    + rewrite <- (insert_delete_id (reviews w) oid body) at 2 by done.
      rewrite map_size_insert_None; [done | apply lookup_delete_eq].
    + intros Hq'. rewrite find_one_id_run, (quiet_next _ _ Hq').
      cbn [with_reviews advance reviews]. by rewrite lookup_delete_eq.
Qed.

(** C8, as the code has it.  An identifier that [ObjectId] refuses (any
    string whose length is not 24 is one) never reaches the database:
    [ObjectId(review_id)] raises [InvalidId], which [remove] lets
    through to the caller, and the world is untouched.  An identifier of
    24 hexadecimal digits (read as twelve bytes) that no stored document
    has makes [remove] fail with NotFound (404) naming it, its round
    trip meeting no fault. *)
Theorem remove_malformed_or_absent (w : world) (review_id : string) :
  (String.length review_id ≠ 24 → ObjectId.of_str review_id = None)
  ∧ (ObjectId.of_str review_id = None →
     ReviewService.remove review_id w = (Raised (InvalidId review_id), w))
  ∧ (∀ oid, ObjectId.of_str review_id = Some oid → generated oid →
       quiet 1 (faults w) = true → reviews w !! oid = None →
       ReviewService.remove review_id w =
         (Raised (HTTPException 404 ("Not found review " +:+ review_id +:+ " for deletion")),
          advance w)).
Proof.
  split; [|split].
  - intros Hlen. unfold ObjectId.of_str. by rewrite decide_False.
  - intros Hid. by rewrite remove_run, Hid.
  - intros oid Hid _ Hq Hb. by rewrite remove_run, Hid, (quiet_next _ _ Hq), Hb.
Qed.

(** ** update *)

Lemma dict_items_copy_id (d : dict) : dict_items_copy d = d.
Proof. apply list_to_map_to_list. Qed.

Lemma update_one_set_id_run oid fields w :
  update_one_set {[ "_id" := VOid oid ]} fields w =
  match next_fault w with
  | Some msg => (Raised (PyMongoError msg), advance w)
  | None =>
      match reviews w !! oid with
      | None => (Returned 0%Z, advance w)
      | Some body =>
          if bool_decide (fields !! "_id" = None ∨ fields !! "_id" = Some (VOid oid)) then
            if bool_decide (delete "_id" fields ∪ body = body) then (Returned 0%Z, advance w)
            else (Returned 1%Z,
                  with_reviews (<[oid := delete "_id" fields ∪ body]> (reviews w)) (advance w))
          else
            (Raised (WriteError
               "Performing an update on the path '_id' would modify the immutable field '_id'"),
             advance w)
      end
  end.
Proof.
  unfold update_one_set. rewrite bind_run, round_trip_run.
  destruct (next_fault w); [done|].
  rewrite bind_run. cbn [get_reviews]. rewrite find_first_id. cbn [advance reviews].
  destruct (reviews w !! oid) as [body|]; [|done]. cbn [fmap option_fmap option_map].
  case_bool_decide; [|done]. by case_bool_decide.
Qed.

Lemma update_run (enc : ReviewFromDB.t → dict) review_id data w :
  ReviewService.update enc review_id data w =
  match ObjectId.of_str review_id with
  | None => (Raised (InvalidId review_id), w)
  | Some oid =>
      match next_fault w with
      | Some msg => (Raised (PyMongoError msg), advance w)
      | None =>
          match reviews w !! oid with
          | None =>
              (Raised (HTTPException HTTPStatus.NOT_FOUND
                         ("Not found review " +:+ review_id +:+ " for update")),
               advance w)
          | Some body =>
              match next_fault (advance w) with
              | Some msg => (Raised (PyMongoError msg), advance (advance w))
              | None =>
                  if bool_decide (enc data !! "_id" = None
                                  ∨ enc data !! "_id" = Some (VOid oid)) then
                    if bool_decide (delete "_id" (enc data) ∪ body = body) then
                      (Returned None, advance (advance w))
                    else
                      let w2 := with_reviews
                                  (<[oid := delete "_id" (enc data) ∪ body]> (reviews w))
                                  (advance (advance w)) in
                      (match next_fault w2 with
                       | Some msg => Raised (PyMongoError msg)
                       | None => Returned (Some (raw_doc oid (delete "_id" (enc data) ∪ body)))
                       end, advance w2)
                  else
                    (Raised (WriteError
                       "Performing an update on the path '_id' would modify the immutable field '_id'"),
                     advance (advance w))
              end
          end
      end
  end.
Proof.
  unfold ReviewService.update, ObjectId_new. rewrite dict_items_copy_id.
  destruct (ObjectId.of_str review_id) as [oid|]; [|done].
  rewrite bind_run. cbn [mret M_ret]. rewrite bind_run, find_one_id_run.
  destruct (next_fault w); [done|].
  destruct (reviews w !! oid) as [body|] eqn:Hb; [|done].
  cbn [fmap option_fmap option_map]. rewrite raw_doc_truthy. cbn [negb].
  rewrite bind_run. cbn [mret M_ret]. rewrite bind_run, update_one_set_id_run.
  destruct (next_fault (advance w)); [done|]. cbn [advance reviews]. rewrite Hb.
  case_bool_decide; [|done]. case_bool_decide; [done|].
  cbn [Z.eqb Pos.eqb]. rewrite bind_run. cbn [mret M_ret]. rewrite find_one_id_run.
  cbn [with_reviews advance reviews]. by rewrite lookup_insert_eq.
Qed.

(** C5, as the code has it.  An identifier that [ObjectId] refuses makes
    [update] raise [InvalidId] before the database is asked: no 404, and
    the world untouched.  With an identifier of 24 hexadecimal digits
    (read as twelve bytes) that no stored document has, [update] writes
    nothing, whatever else happens: the collection and the log are as
    they were; and when the lookup meets no fault it fails with NotFound
    (404), the detail naming the identifier. *)
Theorem update_absent_not_found (enc : ReviewFromDB.t → dict) (w : world)
    (review_id : string) (data : ReviewFromDB.t) :
  let out := ReviewService.update enc review_id data w in
  (ObjectId.of_str review_id = None → out = (Raised (InvalidId review_id), w))
  ∧ (∀ oid, ObjectId.of_str review_id = Some oid → generated oid →
       reviews w !! oid = None →
       reviews out.2 = reviews w
       ∧ logs out.2 = logs w
       ∧ (quiet 1 (faults w) = true →
          out = (Raised (HTTPException 404
                           ("Not found review " +:+ review_id +:+ " for update")),
                 advance w))).
Proof.
  cbv zeta. rewrite update_run. split.
  - by intros ->.
  - intros oid Hid _ Habsent. rewrite Hid, Habsent.
    destruct (next_fault w) eqn:Hf; (split; [done|]; split; [done|]); [|done].
    intros Hq. by rewrite (quiet_next _ _ Hq) in Hf.
Qed.

Lemma subseteq_raw_doc_id (fields body : dict) oid :
  fields ⊆ raw_doc oid body →
  fields !! "_id" = None ∨ fields !! "_id" = Some (VOid oid).
Proof.
  intros Hsub. destruct (fields !! "_id") as [v|] eqn:E; [right | by left].
  apply (lookup_weaken _ _ _ _ E) in Hsub.
  unfold raw_doc in Hsub. rewrite lookup_insert_eq in Hsub. congruence.
Qed.

Lemma subseteq_raw_doc_union (fields body : dict) oid :
  fields ⊆ raw_doc oid body → delete "_id" fields ∪ body = body.
Proof.
  intros Hsub. apply map_subseteq_union, map_subseteq_spec. intros k v Hk.
  apply lookup_delete_Some in Hk as [Hne Hk].
  apply (lookup_weaken _ _ _ _ Hk) in Hsub.
  unfold raw_doc in Hsub. by rewrite lookup_insert_ne in Hsub.
Qed.

(** C4.  [update] of an existing review with data whose every field
    already has the submitted value in the stored document (the two
    round trips meeting no fault): the collection and the log are as
    they were, and the result is Python's [None], neither the document
    nor a NotFound failure. *)
Theorem update_identical_returns_none (enc : ReviewFromDB.t → dict) (w : world)
    (review_id : string) (oid : ObjectId.t) (body : dict) (data : ReviewFromDB.t) :
  ObjectId.of_str review_id = Some oid →
  reviews w !! oid = Some body →
  enc data ⊆ raw_doc oid body →
  quiet 2 (faults w) = true →
  ReviewService.update enc review_id data w = (Returned None, advance (advance w))
  ∧ reviews (advance (advance w)) = reviews w
  ∧ logs (advance (advance w)) = logs w.
Proof.
  intros Hid Hb Hsub Hq.
  rewrite update_run, Hid, (quiet_next _ _ Hq), Hb.
  rewrite (quiet_next 0 (advance w)) by by apply quiet_advance.
  rewrite bool_decide_true by by eapply subseteq_raw_doc_id.
  rewrite bool_decide_true by by eapply subseteq_raw_doc_union.
  done.
Qed.


(** ** add *)

Lemma content_of_lookup (kw : dict) k :
  content_of kw !! k = if decide (reserved k) then None else kw !! k.
Proof.
  unfold content_of. apply option_eq. intros v.
  rewrite map_lookup_filter_Some. simpl. case_decide; [|tauto].
  split; [tauto | discriminate].
Qed.

Lemma content_of_insert_reserved (kw : dict) k v :
  reserved k → content_of (<[k := v]> kw) = content_of kw.
Proof.
  intros Hk. apply map_eq. intros j. rewrite !content_of_lookup.
  case_decide; [done|]. apply lookup_insert_ne. congruence.
Qed.

Lemma content_of_idemp (kw : dict) : content_of (content_of kw) = content_of kw.
Proof.
  apply map_eq. intros j. rewrite !content_of_lookup. by case_decide.
Qed.


Lemma reserved_id : reserved "_id".
Proof. unfold reserved. set_solver. Qed.
Lemma reserved_film_id : reserved "film_id".
Proof. unfold reserved. set_solver. Qed.
Lemma reserved_user_id : reserved "user_id".
Proof. unfold reserved. set_solver. Qed.

Lemma Review_new_run user_id (data : ReviewIn.t) w :
  Review.new (<["user_id" := VStr user_id]> (ReviewIn.model_dump data)) w =
  (Returned {| Review.film_id := ReviewIn.film_id data; Review.user_id := user_id;
               Review.content := content_of (ReviewIn.content data) |}, w).
Proof.
  unfold Review.new, ReviewIn.model_dump.
  rewrite lookup_insert_ne, !lookup_insert_eq by done.
  by rewrite !content_of_insert_reserved
    by auto using reserved_film_id, reserved_user_id.
Qed.

Lemma ReviewFromDB_dump_run film_id user_id (c : dict) w :
  ReviewFromDB.new
    (Review.model_dump {| Review.film_id := film_id; Review.user_id := user_id;
                          Review.content := content_of c |}) w =
  (Returned {| ReviewFromDB.id := None; ReviewFromDB.film_id := film_id;
               ReviewFromDB.user_id := user_id; ReviewFromDB.content := content_of c |}, w).
Proof.
  unfold ReviewFromDB.new, Review.model_dump. cbn [Review.film_id Review.user_id Review.content].
  rewrite lookup_insert_eq, lookup_insert_ne, lookup_insert_eq by done.
  rewrite !lookup_insert_ne by done.
  rewrite content_of_lookup, decide_True by apply reserved_id.
  by rewrite !content_of_insert_reserved, content_of_idemp
    by auto using reserved_film_id, reserved_user_id.
Qed.

Lemma insert_one_run new_oid document w :
  insert_one new_oid document w =
  match next_fault w with
  | Some msg => (Raised (PyMongoError msg), advance w)
  | None =>
      match reviews w !! new_oid with
      | Some _ => (Raised (DuplicateKeyError new_oid), advance w)
      | None => (Returned new_oid, with_reviews (<[new_oid := document]> (reviews w)) (advance w))
      end
  end.
Proof.
  unfold insert_one. rewrite bind_run, round_trip_run.
  destruct (next_fault w); [done|].
  rewrite bind_run. cbn [get_reviews advance reviews].
  by destruct (reviews w !! new_oid).
Qed.

Lemma add_run new_oid user_id (data : ReviewIn.t) w :
  ReviewService.add new_oid user_id data w =
  let film_id := ReviewIn.film_id data in
  match next_fault w with
  | Some msg => (Raised (PyMongoError msg), advance w)
  | None =>
      match find_first {[ "film_id" := VStr film_id; "user_id" := VStr user_id ]} (reviews w) with
      | Some _ =>
          (Raised (HTTPException HTTPStatus.CONFLICT
                     ("Review by user " +:+ user_id +:+ " for movie " +:+ film_id
                      +:+ " already exist")),
           advance w)
      | None =>
          match next_fault (advance w) with
          | Some msg =>
              add_insert_failed user_id film_id (PyMongoError msg) (advance (advance w))
          | None =>
              match reviews w !! new_oid with
              | Some _ =>
                  add_insert_failed user_id film_id (DuplicateKeyError new_oid)
                    (advance (advance w))
              | None =>
                  let w2 := with_reviews
                              (<[new_oid := stored_fields user_id data]> (reviews w))
                              (advance (advance w)) in
                  (match next_fault w2 with
                   | Some msg => Raised (PyMongoError msg)
                   | None => Returned (Some (raw_doc new_oid (stored_fields user_id data)))
                   end, advance w2)
              end
          end
      end
  end.
Proof.
  unfold ReviewService.add. rewrite bind_run, Review_new_run. cbn [Review.film_id].
  unfold ReviewService.check_if_review_exist. rewrite bind_run, find_one_run.
  cbv zeta. destruct (next_fault w); [done|].
  destruct (find_first _ (reviews w)) as [[k b]|].
  { cbn [fmap option_fmap option_map fst snd]. by rewrite raw_doc_truthy. }
  cbn [fmap option_fmap option_map truthy].
  rewrite bind_run, ReviewFromDB_dump_run, bind_run.
  unfold try_except. rewrite insert_one_run.
  destruct (next_fault (advance w)); [done|]. cbn [advance reviews].
  destruct (reviews w !! new_oid); [done|].
  rewrite find_one_id_run. cbn [with_reviews advance reviews].
  by rewrite lookup_insert_eq.
Qed.

Lemma string_app_assoc (a b c : string) : (a +:+ b) +:+ c = a +:+ b +:+ c.
Proof.
  induction a as [|x a IH]; [done|].
  change (String x ((a +:+ b) +:+ c) = String x (a +:+ b +:+ c)). by f_equal.
Qed.

Lemma stored_fields_review_of user_id (data : ReviewIn.t) :
  review_of (ReviewIn.film_id data) user_id (stored_fields user_id data).
Proof.
  unfold review_of, stored_fields. split.
  - rewrite lookup_insert_ne by done. apply lookup_insert_eq.
  - rewrite 2!lookup_insert_ne by done. apply lookup_insert_eq.
Qed.

Lemma find_first_pair_None f u r :
  find_first {[ "film_id" := VStr f; "user_id" := VStr u ]} r = None
  ↔ reviews_of_pair f u r = ∅.
Proof.
  rewrite find_first_None. unfold reviews_of_pair. rewrite map_empty. split.
  - intros H k. apply eq_None_not_Some. intros [body Hb].
    apply map_lookup_filter_Some in Hb as [Hb Hp]. simpl in Hp.
    apply (matches_pair f u k) in Hp. by rewrite (H _ _ Hb) in Hp.
  - intros H k body Hb. apply not_true_is_false. intros Hm.
    apply matches_pair in Hm. specialize (H k).
    apply eq_None_not_Some in H. apply H. exists body.
    by apply map_lookup_filter_Some.
Qed.

(** What a call of [add] that returns has done. *)
Lemma add_returned_inv new_oid user_id (data : ReviewIn.t) w res w' :
  ReviewService.add new_oid user_id data w = (Returned res, w') →
  reviews_of_pair (ReviewIn.film_id data) user_id (reviews w) = ∅
  ∧ reviews w !! new_oid = None
  ∧ res = Some (raw_doc new_oid (stored_fields user_id data))
  ∧ reviews w' = <[new_oid := stored_fields user_id data]> (reviews w)
  ∧ logs w' = logs w.
Proof.
  rewrite add_run. cbv zeta.
  destruct (next_fault w); [discriminate|].
  destruct (find_first _ (reviews w)) eqn:Hf; [discriminate|].
  destruct (next_fault (advance w)); [discriminate|].
  destruct (reviews w !! new_oid); [discriminate|].
  destruct (next_fault _); [discriminate|].
  intros [= <- <-]. by apply find_first_pair_None in Hf.
Qed.

(** A call of [add] returns when no review of the pair is stored, the
    generated identifier is not in use and the three round trips meet
    no fault. *)
Lemma add_returns new_oid user_id (data : ReviewIn.t) w :
  reviews_of_pair (ReviewIn.film_id data) user_id (reviews w) = ∅ →
  reviews w !! new_oid = None →
  quiet 3 (faults w) = true →
  ∃ w', ReviewService.add new_oid user_id data w
        = (Returned (Some (raw_doc new_oid (stored_fields user_id data))), w').
Proof.
  intros Hp Hn Hq. rewrite add_run. cbv zeta.
  rewrite (quiet_next _ _ Hq). apply find_first_pair_None in Hp. rewrite Hp.
  apply quiet_advance in Hq. rewrite (quiet_next _ _ Hq), Hn.
  apply quiet_advance in Hq. rewrite (quiet_next 0) by done. eauto.
Qed.

(** C1.  After a call of [add] that returned, a second call for the same
    film and user (its existence check meeting no fault) fails with
    Conflict (409); the detail names the user and the film; the second
    call writes nothing, and the collection holds exactly one review of
    that pair.  This holds from every collection the first call can
    start in, those with at most one review per pair among them. *)
Theorem add_twice_conflict (w w1 : world) (new_oid new_oid' : ObjectId.t)
    (user_id : string) (data data' : ReviewIn.t) (res : option dict) :
  ReviewService.add new_oid user_id data w = (Returned res, w1) →
  ReviewIn.film_id data' = ReviewIn.film_id data →
  quiet 1 (faults w1) = true →
  ∃ detail,
    ReviewService.add new_oid' user_id data' w1
      = (Raised (HTTPException 409 detail), advance w1)
    ∧ detail = "Review by user " +:+ user_id +:+ " for movie "
               +:+ ReviewIn.film_id data +:+ " already exist"
    ∧ mentions detail user_id
    ∧ mentions detail (ReviewIn.film_id data)
    ∧ reviews (advance w1) = reviews w1
    ∧ size (reviews_of_pair (ReviewIn.film_id data) user_id (reviews w1)) = 1.
Proof.
  intros Hadd Hfilm Hq.
  apply add_returned_inv in Hadd as (Hnone & Hfresh & _ & Hst & _).
  assert (reviews_of_pair (ReviewIn.film_id data) user_id (reviews w1)
          = {[ new_oid := stored_fields user_id data ]}) as Hone.
  { rewrite Hst. unfold reviews_of_pair in *.
    rewrite map_filter_insert_True by apply stored_fields_review_of.
    by rewrite Hnone. }
  eexists. split; [|split; [reflexivity|]].
  - rewrite add_run. cbv zeta. rewrite (quiet_next _ _ Hq), Hfilm.
    destruct (find_first _ (reviews w1)) eqn:Hf; [done|].
    apply find_first_pair_None in Hf. rewrite Hf in Hone.
    by apply (f_equal (λ m : gmap _ _, m !! new_oid)) in Hone;
      rewrite lookup_empty, lookup_singleton_eq in Hone.
  - repeat split.
    + by exists "Review by user ", (" for movie " +:+ ReviewIn.film_id data +:+ " already exist").
    + exists ("Review by user " +:+ user_id +:+ " for movie "), " already exist".
      by rewrite !string_app_assoc.
    + rewrite Hone. apply map_size_singleton.
Qed.


(** The re-read of [add] is a round trip of its own: a fault met there,
    after the check found nothing and the insertion succeeded, reaches
    the caller as it is, unlogged, and the document stays inserted. *)
Lemma add_reread_fault_propagates (r : gmap ObjectId.t dict) (l : list log_record)
    (msg : string) (fs : list (option string))
    (new_oid : ObjectId.t) (user_id : string) (data : ReviewIn.t) :
  reviews_of_pair (ReviewIn.film_id data) user_id r = ∅ →
  r !! new_oid = None →
  ReviewService.add new_oid user_id data
    {| reviews := r; logs := l; faults := None :: None :: Some msg :: fs |}
  = (Raised (PyMongoError msg),
     {| reviews := <[new_oid := stored_fields user_id data]> r; logs := l; faults := fs |}).
Proof.
  intros Hnone Hfresh. apply find_first_pair_None in Hnone.
  rewrite add_run. cbv zeta. cbn [next_fault advance faults reviews tail].
  by rewrite Hnone, Hfresh.
Qed.


(** C9.  When the existence check of [add] meets a database-layer fault,
    [add] ends with that very fault: it is not turned into an
    [HTTPException], nothing is logged and nothing is written. *)
Theorem add_check_fault_propagates (r : gmap ObjectId.t dict) (l : list log_record)
    (msg : string) (fs : list (option string))
    (new_oid : ObjectId.t) (user_id : string) (data : ReviewIn.t) :
  ReviewService.add new_oid user_id data
    {| reviews := r; logs := l; faults := Some msg :: fs |}
  = (Raised (PyMongoError msg), {| reviews := r; logs := l; faults := fs |}).
Proof. by rewrite add_run. Qed.

(** ** get *)

Lemma mapM_run {A B} (f : A → M B) (l : list A) (k : list B) :
  Forall2 (λ x y, ∀ w, f x w = (Returned y, w)) l k →
  ∀ w, mapM f l w = (Returned k, w).
Proof.
  induction 1 as [|x y l k Hxy _ IH]; intros w; [done|].
  cbn [mapM]. rewrite bind_run, Hxy, bind_run, IH. done.
Qed.

Lemma get_run page_number per_page w :
  ReviewService.get page_number per_page w =
  if ((page_number - 1) * per_page <? 0)%Z then
    (Raised (HTTPException HTTPStatus.INTERNAL_SERVER_ERROR "Error while getting reviews"),
     (ugc_logger_error "Error while getting reviews" (ValueError "skip must be >= 0") w).2)
  else if (per_page <? 0)%Z then (Raised (ValueError "length must be non-negative"), w)
  else
    match next_fault w with
    | Some msg => (Raised (PyMongoError msg), advance w)
    | None =>
        if fits_int64 ((page_number - 1) * per_page) && fits_int64 (Z.abs per_page) then
          mapM ReviewFromDB.new
            (take (Z.to_nat per_page)
               (cursor_documents
                  {| sort_by_id := true; c_skip := (page_number - 1) * per_page;
                     c_limit := per_page |}
                  (reviews w)))
            (advance w)
        else (Raised OverflowError, advance w)
    end.
Proof.
  unfold ReviewService.get. rewrite bind_run. unfold try_except at 1.
  rewrite bind_run. unfold skip.
  destruct ((page_number - 1) * per_page <? 0)%Z; [done|].
  cbn [mret M_ret limit sort_id find sort_by_id c_skip c_limit].
  rewrite bind_run. unfold to_list.
  destruct (per_page <? 0)%Z; [done|].
  rewrite bind_run, round_trip_run.
  destruct (next_fault w); [done|]. cbn [c_skip c_limit].
  destruct (fits_int64 _ && fits_int64 _); [|done]. by rewrite bind_run.
Qed.

Lemma fits_int64_page (page_number per_page : Z) :
  (1 ≤ page_number)%Z → (0 < per_page)%Z →
  ((page_number - 1) * per_page < 2 ^ 63)%Z → (per_page < 2 ^ 63)%Z →
  fits_int64 ((page_number - 1) * per_page) && fits_int64 (Z.abs per_page) = true.
Proof.
  intros Hp Hpp Hskip Hsize. unfold fits_int64.
  rewrite Z.abs_eq by lia.
  repeat (apply andb_true_intro; split); first [apply Z.leb_le | apply Z.ltb_lt]; nia.
Qed.

(** The fetch of [get] is outside its [try]: a fault met there ends the
    call as it is, with nothing logged. *)
Lemma get_fetch_fault_unhandled (r : gmap ObjectId.t dict) (l : list log_record)
    (msg : string) (fs : list (option string)) (page_number per_page : Z) :
  (1 ≤ page_number)%Z → (0 < per_page)%Z →
  ReviewService.get page_number per_page {| reviews := r; logs := l; faults := Some msg :: fs |}
  = (Raised (PyMongoError msg), {| reviews := r; logs := l; faults := fs |}).
Proof.
  intros Hp Hpp. rewrite get_run.
  rewrite (proj2 (Z.ltb_ge _ _)) by nia. rewrite (proj2 (Z.ltb_ge _ _)) by lia. done.
Qed.

(** C3, at a fault of the fetch.  The collection is empty and the one
    round trip of [get], the awaited [to_list], meets the fault
    "connection lost": the call ends with that fault itself, not with an
    [HTTPException] of status 500, and the log stays empty. *)
Theorem get_fetch_fault_not_translated :
  ReviewService.get 1 50 {| reviews := ∅; logs := []; faults := [Some "connection lost"] |}
  = (Raised (PyMongoError "connection lost"), {| reviews := ∅; logs := []; faults := [] |}).
Proof. by apply get_fetch_fault_unhandled. Qed.

Lemma record_of_review (kv : ObjectId.t * dict) :
  is_review kv.2 →
  ∃ rec, record_of kv rec ∧ ReviewFromDB.id rec = Some (ObjectId.to_str kv.1).
Proof.
  destruct kv as [k body]. intros (f & u & Hf & Hu). simpl in *.
  eexists {| ReviewFromDB.id := Some (ObjectId.to_str k); ReviewFromDB.film_id := f;
             ReviewFromDB.user_id := u; ReviewFromDB.content := content_of (raw_doc k body) |}.
  split; [|done]. intros w. unfold ReviewFromDB.new, raw_doc. simpl.
  rewrite !lookup_insert_ne by done. rewrite Hf, Hu. by rewrite lookup_insert_eq.
Qed.

Lemma records_of_reviews (page : list (ObjectId.t * dict)) :
  Forall (λ kv, is_review kv.2) page →
  ∃ recs, Forall2 (λ kv rec, record_of kv rec
                             ∧ ReviewFromDB.id rec = Some (ObjectId.to_str kv.1)) page recs.
Proof.
  induction 1 as [|kv page Hkv _ [recs IH]]; [by exists []|].
  destruct (record_of_review kv Hkv) as [rec Hrec].
  exists (rec :: recs). by constructor.
Qed.

Lemma StronglySorted_take_drop {A} (R : relation A) (l : list A) n m :
  StronglySorted R l → StronglySorted R (take n (drop m l)).
Proof.
  intros Hs. rewrite <- (take_drop m l) in Hs. apply StronglySorted_app_1_r in Hs.
  rewrite <- (take_drop n (drop m l)) in Hs. by apply StronglySorted_app_1_l in Hs.
Qed.

(** C2, as the code has it.  [get] with [page_number ≥ 1] and
    [per_page > 0], the skip count and the page size below [2^63], on a
    collection of review documents, its fetch meeting no fault.  Let
    [all] be the stored documents in non-decreasing order of [_id].  The
    call returns the records of the documents of [all] that follow the
    first [(page_number - 1) * per_page], in that order and at most
    [per_page] of them, each with the string form of its document's
    [_id]; it returns the empty list when [all] has no more than
    [(page_number - 1) * per_page] documents.  The collection is not
    changed. *)
Theorem get_page (w : world) (page_number per_page : Z) :
  (1 ≤ page_number)%Z →
  (0 < per_page)%Z →
  ((page_number - 1) * per_page < 2 ^ 63)%Z →
  (per_page < 2 ^ 63)%Z →
  quiet 1 (faults w) = true →
  map_Forall (λ _ body, is_review body) (reviews w) →
  ∃ (all page : list (ObjectId.t * dict)) (recs : list ReviewFromDB.t),
    ReviewService.get page_number per_page w = (Returned recs, advance w)
    ∧ all ≡ₚ map_to_list (reviews w)
    ∧ StronglySorted key_le all
    ∧ page = take (Z.to_nat per_page)
               (drop (Z.to_nat ((page_number - 1) * per_page)) all)
    ∧ Forall2 (λ kv rec, record_of kv rec
                         ∧ ReviewFromDB.id rec = Some (ObjectId.to_str kv.1)) page recs
    ∧ StronglySorted key_le page
    ∧ (length recs ≤ Z.to_nat per_page)%nat
    ∧ length recs
      = Nat.min (Z.to_nat per_page)
          (length all - Z.to_nat ((page_number - 1) * per_page))
    ∧ ((length all ≤ Z.to_nat ((page_number - 1) * per_page))%nat → recs = [])
    ∧ reviews (advance w) = reviews w.
Proof.
  intros Hp Hpp Hskip Hsize Hq Hrev.
  set (all := merge_sort key_le (map_to_list (reviews w))).
  set (page := take (Z.to_nat per_page)
                 (drop (Z.to_nat ((page_number - 1) * per_page)) all)).
  assert (all ≡ₚ map_to_list (reviews w)) as Hperm by apply merge_sort_Permutation.
  assert (StronglySorted key_le all) as Hsorted by apply (StronglySorted_merge_sort _).
  assert (Forall (λ kv, is_review kv.2) page) as Hpage.
  { apply Forall_take, Forall_drop. rewrite Hperm.
    apply map_Forall_to_list in Hrev. eapply Forall_impl; [exact Hrev|].
    by intros [k body]. }
  destruct (records_of_reviews page Hpage) as [recs Hrecs].
  assert (length recs = length page) as Hlen by (symmetry; by eapply Forall2_length).
  assert (length page = Nat.min (Z.to_nat per_page)
            (length all - Z.to_nat ((page_number - 1) * per_page))) as Hlen'
    by (unfold page; by rewrite length_take, length_drop).
  exists all, page, recs. repeat split; try done.
  - rewrite get_run.
    rewrite (proj2 (Z.ltb_ge _ _)) by nia. rewrite (proj2 (Z.ltb_ge _ _)) by lia.
    rewrite (quiet_next _ _ Hq), fits_int64_page by done. apply mapM_run.
    unfold cursor_documents. cbn [sort_by_id c_skip c_limit].
    rewrite (proj2 (Z.eqb_neq _ _)) by lia.
    rewrite Zabs2Nat.abs_nat_nonneg by lia. fold all. fold page.
    rewrite <- fmap_take. unfold page at 1. rewrite take_idemp. fold page.
    apply Forall2_fmap_l. eapply Forall2_impl; [exact Hrecs|].
    intros kv rec [Hrec _]. exact Hrec.
  - by apply StronglySorted_take_drop.
  - rewrite Hlen, Hlen'. lia.
  - by rewrite Hlen, Hlen'.
  - intros Hshort. apply length_zero_iff_nil. rewrite Hlen, Hlen'. lia.
Qed.

(** ** Further properties of the service *)

(** The invariant of the data model: a call of [add], whatever its
    outcome, keeps the collection free of a second review of any film by
    the same user. *)
Theorem add_keeps_one_review_per_pair (w : world) (new_oid : ObjectId.t)
    (user_id : string) (data : ReviewIn.t) :
  one_review_per_pair (reviews w) →
  one_review_per_pair (reviews (ReviewService.add new_oid user_id data w).2).
Proof.
  intros Hinv. rewrite add_run. cbv zeta.
  destruct (next_fault w); [done|].
  destruct (find_first _ (reviews w)) eqn:Hf; [done|].
  destruct (next_fault (advance w)); [done|].
  destruct (reviews w !! new_oid) eqn:Hn; [done|].
  cbn [snd advance with_reviews reviews].
  intros f u. unfold reviews_of_pair.
  destruct (decide (review_of f u (stored_fields user_id data))) as [Hr | Hr].
  - rewrite map_filter_insert_True by done.
    destruct Hr as [Hfilm Huser].
    destruct (stored_fields_review_of user_id data) as [Hfilm' Huser'].
    rewrite Hfilm' in Hfilm. rewrite Huser' in Huser.
    injection Hfilm as <-. injection Huser as <-.
    apply find_first_pair_None in Hf. unfold reviews_of_pair in Hf. rewrite Hf.
    by rewrite insert_empty, map_size_singleton.
  - rewrite map_filter_insert_False by done. rewrite delete_id by done. apply Hinv.
Qed.

(** A fault met by the insertion of [add] is logged with the user and
    the film, and surfaced as an internal error (500) whose detail names
    both; nothing is written. *)
Theorem add_insert_fault_logged (r : gmap ObjectId.t dict) (l : list log_record)
    (msg : string) (fs : list (option string))
    (new_oid : ObjectId.t) (user_id : string) (data : ReviewIn.t) :
  reviews_of_pair (ReviewIn.film_id data) user_id r = ∅ →
  ReviewService.add new_oid user_id data
    {| reviews := r; logs := l; faults := None :: Some msg :: fs |}
  = (Raised (HTTPException 500
               ("Error while adding review by " +:+ user_id +:+ " for movie "
                +:+ ReviewIn.film_id data)),
     {| reviews := r;
        logs := l ++ [LogError ("Error while adding review by " +:+ user_id +:+ " for movie "
                                +:+ ReviewIn.film_id data) (PyMongoError msg)];
        faults := fs |}).
Proof.
  intros Hnone. apply find_first_pair_None in Hnone.
  rewrite add_run. cbv zeta. cbn [next_fault faults reviews]. by rewrite Hnone.
Qed.


(** ** Outcomes and frames of each operation *)

(** [check_if_review_exist], its round trip meeting no fault, returns
    Python's [None] exactly when the collection has no review of the
    film by the user; a document it returns is a stored review of that
    pair.  It writes nothing. *)
Theorem check_finds_review_of_pair (w : world) (movie_id user_id : string) :
  quiet 1 (faults w) = true →
  ∃ r,
    ReviewService.check_if_review_exist movie_id user_id w = (Returned r, advance w)
    ∧ (r = None ↔ reviews_of_pair movie_id user_id (reviews w) = ∅)
    ∧ (∀ doc, r = Some doc →
         ∃ oid body, reviews w !! oid = Some body ∧ doc = raw_doc oid body
                     ∧ review_of movie_id user_id body).
Proof.
  intros Hq. unfold ReviewService.check_if_review_exist.
  rewrite find_one_run, (quiet_next _ _ Hq).
  eexists. split; [reflexivity|]. split.
  - rewrite <- find_first_pair_None. by destruct (find_first _ _).
  - intros doc Hdoc. destruct (find_first _ _) as [[oid body]|] eqn:Hf; [|done].
    apply find_first_Some in Hf as [Hb Hm]. apply matches_pair in Hm.
    injection Hdoc as <-. by exists oid, body.
Qed.

(** [add], its existence check meeting no fault, fails with Conflict
    (409) exactly when a review of the film by the user is stored,
    however it came to be there; it then stops after the check: no
    insertion is tried, nothing is written or logged. *)
Theorem add_conflict_iff_review_stored (w : world) (new_oid : ObjectId.t)
    (user_id : string) (data : ReviewIn.t) :
  quiet 1 (faults w) = true →
  let out := ReviewService.add new_oid user_id data w in
  let detail := "Review by user " +:+ user_id +:+ " for movie "
                +:+ ReviewIn.film_id data +:+ " already exist" in
  ((∃ d, out.1 = Raised (HTTPException 409 d))
   ↔ reviews_of_pair (ReviewIn.film_id data) user_id (reviews w) ≠ ∅)
  ∧ (reviews_of_pair (ReviewIn.film_id data) user_id (reviews w) ≠ ∅ →
     out = (Raised (HTTPException 409 detail), advance w)).
Proof.
  intros Hq. cbv zeta. rewrite add_run. cbv zeta. rewrite (quiet_next _ _ Hq).
  rewrite <- find_first_pair_None.
  destruct (find_first _ (reviews w)) as [kv|] eqn:Hf.
  - split; [|done]. split; [done|]. intros _. by eexists.
  - split; [|done]. split; [|done]. intros [d Hd]. exfalso.
    destruct (next_fault (advance w)); [discriminate Hd|].
    destruct (reviews w !! new_oid); [discriminate Hd|].
    cbn [fst] in Hd. destruct (next_fault _); discriminate Hd.
Qed.


(** [add] never overwrites or deletes: whatever its arguments, the
    faults it meets and its outcome, every document stored before the
    call is stored unchanged after it. *)
Theorem add_keeps_stored_documents (w : world) (new_oid : ObjectId.t)
    (user_id : string) (data : ReviewIn.t) :
  reviews w ⊆ reviews (ReviewService.add new_oid user_id data w).2.
Proof.
  rewrite add_run. cbv zeta.
  destruct (next_fault w); [done|].
  destruct (find_first _ (reviews w)); [done|].
  destruct (next_fault (advance w)); [done|].
  destruct (reviews w !! new_oid) eqn:Hn; [done|].
  cbn [snd with_reviews advance reviews]. by apply insert_subseteq.
Qed.

Lemma ReviewFromDB_new_world (kw : dict) (w : world) : (ReviewFromDB.new kw w).2 = w.
Proof.
  unfold ReviewFromDB.new.
  destruct (kw !! "film_id") as [[]|]; try done.
  destruct (kw !! "user_id") as [[]|]; done.
Qed.

Lemma mapM_new_world (l : list dict) (w : world) : (mapM ReviewFromDB.new l w).2 = w.
Proof.
  revert w. induction l as [|d l IH]; intros w; [done|].
  cbn [mapM]. rewrite bind_run.
  pose proof (ReviewFromDB_new_world d w) as Hd.
  destruct (ReviewFromDB.new d w) as [[rec|e] w1]; simpl in Hd; subst w1; [|done].
  rewrite bind_run. specialize (IH w).
  destruct (mapM ReviewFromDB.new l w) as [[recs|e] w2]; simpl in IH; by subst w2.
Qed.

(** [get] is read-only: for all arguments, all fault schedules and every
    outcome, the collection after the call is the collection before it;
    and unless the skip count [(page_number - 1) * per_page] is
    negative, nothing is logged either. *)
Theorem get_never_writes (w : world) (page_number per_page : Z) :
  reviews (ReviewService.get page_number per_page w).2 = reviews w
  ∧ ((0 ≤ (page_number - 1) * per_page)%Z →
     logs (ReviewService.get page_number per_page w).2 = logs w).
Proof.
  rewrite get_run.
  destruct (Z.ltb_spec ((page_number - 1) * per_page) 0); [split; [done | lia]|].
  destruct (per_page <? 0)%Z; [done|].
  destruct (next_fault w); [done|].
  destruct (fits_int64 _ && fits_int64 _); [|done].
  by rewrite mapM_new_world.
Qed.

(** The arguments [get] does not accept.  A negative skip count (page 0
    of a positive size, for one) is refused by the cursor inside the
    [try]: the refusal is logged and surfaced as an internal error
    (500), and the database is never asked.  A negative [per_page] with
    a skip count that is not negative gets past the [try] and is refused
    by [to_list], whose [ValueError] reaches the caller as it is,
    unlogged. *)
Theorem get_refuses_bad_arguments (w : world) (page_number per_page : Z) :
  (((page_number - 1) * per_page < 0)%Z →
   ReviewService.get page_number per_page w
   = (Raised (HTTPException 500 "Error while getting reviews"),
      {| reviews := reviews w;
         logs := logs w ++ [LogError "Error while getting reviews"
                              (ValueError "skip must be >= 0")];
         faults := faults w |}))
  ∧ ((0 ≤ (page_number - 1) * per_page)%Z → (per_page < 0)%Z →
     ReviewService.get page_number per_page w
     = (Raised (ValueError "length must be non-negative"), w)).
Proof.
  rewrite get_run. split.
  - intros H. by rewrite (proj2 (Z.ltb_lt _ _)) by done.
  - intros H1 H2. rewrite (proj2 (Z.ltb_ge _ _)) by done.
    by rewrite (proj2 (Z.ltb_lt _ _)) by done.
Qed.

(** How [update] can end.  It never logs.  The only [HTTPException] it
    raises is NotFound (404) naming the identifier.  A malformed
    identifier makes it raise [InvalidId] before the database is asked,
    the world untouched; a database fault at its first round trip
    reaches the caller as it is. *)
Theorem update_outcomes (enc : ReviewFromDB.t → dict) (w : world)
    (review_id : string) (data : ReviewFromDB.t) :
  let out := ReviewService.update enc review_id data w in
  logs out.2 = logs w
  ∧ (∀ status detail, out.1 = Raised (HTTPException status detail) →
       status = 404%Z ∧ detail = "Not found review " +:+ review_id +:+ " for update"
       ∧ reviews out.2 = reviews w)
  ∧ (ObjectId.of_str review_id = None → out = (Raised (InvalidId review_id), w))
  ∧ (∀ oid msg, ObjectId.of_str review_id = Some oid → next_fault w = Some msg →
       out = (Raised (PyMongoError msg), advance w)).
Proof.
  cbv zeta. rewrite update_run.
  destruct (ObjectId.of_str review_id) as [oid|]; [|by repeat split].
  destruct (next_fault w) as [msg|].
  { split; [done|]. split; [done|]. split; [done|]. by intros oid' msg' _ [= <-]. }
  destruct (reviews w !! oid) as [body|].
  2:{ split; [done|]. split; [|done]. by intros status detail [= <- <-]. }
  destruct (next_fault (advance w)); [by repeat split|].
  case_bool_decide; [|by repeat split].
  case_bool_decide; [by repeat split|].
  cbv zeta. split; [done|]. split; [|done].
  intros status detail Hd. cbn [fst] in Hd. destruct (next_fault _); discriminate Hd.
Qed.

(** How [remove] can end.  It never logs and never adds or changes a
    document: what is stored after the call was stored before it.  The
    only [HTTPException] it raises is NotFound (404) naming the
    identifier, and then nothing was deleted.  A database fault at its
    round trip reaches the caller as it is, nothing deleted. *)
Theorem remove_outcomes (w : world) (review_id : string) :
  let out := ReviewService.remove review_id w in
  logs out.2 = logs w
  ∧ reviews out.2 ⊆ reviews w
  ∧ (∀ status detail, out.1 = Raised (HTTPException status detail) →
       status = 404%Z ∧ detail = "Not found review " +:+ review_id +:+ " for deletion"
       ∧ reviews out.2 = reviews w)
  ∧ (∀ oid msg, ObjectId.of_str review_id = Some oid → next_fault w = Some msg →
       out = (Raised (PyMongoError msg), advance w)).
Proof.
  cbv zeta. rewrite remove_run.
  destruct (ObjectId.of_str review_id) as [oid|]; [|by repeat split].
  destruct (next_fault w) as [msg|].
  { split; [done|]. split; [done|]. split; [done|]. by intros oid' msg' _ [= <-]. }
  destruct (reviews w !! oid) as [body|].
  - split; [done|]. split; [|done].
    cbn [snd with_reviews advance reviews]. apply delete_subseteq.
  - split; [done|]. split; [done|]. split; [|done].
    by intros status detail [= <- <-].
Qed.

(** ** Round trips and compositions *)

Lemma hex_char_digit n :
  (n < 16)%N →
  ObjectId.hex_digit (ObjectId.hex_char n) = Some n
  ∧ ObjectId.is_space (ObjectId.hex_char n) = false.
Proof.
  intros Hn.
  assert (Forall (λ m, ObjectId.hex_digit (ObjectId.hex_char m) = Some m
                       ∧ ObjectId.is_space (ObjectId.hex_char m) = false)
            (N.of_nat <$> seq 0 16)) as Hall
    by (apply (bool_decide_unpack _); vm_compute; exact I).
  rewrite Forall_forall in Hall. apply Hall.
  apply list_elem_of_fmap. exists (N.to_nat n). split; [lia|].
  apply elem_of_seq. lia.
Qed.

Lemma fromhex_to_str (o : ObjectId.t) :
  Forall (λ b, (b < 256)%N) o → ObjectId.fromhex (ObjectId.to_str o) = Some o.
Proof.
  induction 1 as [|b o Hb _ IH]; [done|].
  assert (b / 16 < 16)%N as Hhi by (apply N.Div0.div_lt_upper_bound; lia).
  assert (b mod 16 < 16)%N as Hlo by (apply N.mod_lt; lia).
  destruct (hex_char_digit _ Hhi) as [Hd1 Hs1].
  destruct (hex_char_digit _ Hlo) as [Hd2 _].
  cbn [ObjectId.to_str ObjectId.fromhex]. rewrite Hs1, Hd1, Hd2, IH.
  do 2 f_equal. rewrite (N.div_mod b 16) at 3 by lia. lia.
Qed.

Lemma length_to_str (o : ObjectId.t) :
  String.length (ObjectId.to_str o) = 2 * length o.
Proof. induction o as [|b o IH]; [done|]. cbn [ObjectId.to_str String.length length]. lia. Qed.

(** The string form of a twelve-byte identifier reads back as that
    identifier: [ObjectId(str(oid)) == oid]. *)
Lemma of_str_to_str (o : ObjectId.t) :
  generated o → ObjectId.of_str (ObjectId.to_str o) = Some o.
Proof.
  intros [Hlen Hbytes]. unfold ObjectId.of_str.
  rewrite decide_True by (rewrite length_to_str; lia).
  by apply fromhex_to_str.
Qed.

Lemma hex_digit_Some c d :
  ObjectId.hex_digit c = Some d → (d < 16)%N ∧ ObjectId.is_space c = false.
Proof.
  unfold ObjectId.hex_digit, ObjectId.is_space. cbv zeta.
  generalize (N_of_ascii c). intros n H.
  destruct (N.leb_spec 48 n), (N.leb_spec n 57), (N.leb_spec 97 n), (N.leb_spec n 102),
    (N.leb_spec 65 n), (N.leb_spec n 70);
    simpl in H; try discriminate H; injection H as <-;
    (split; [lia|]); apply orb_false_intro;
    first [ apply N.eqb_neq; lia
          | apply andb_false_iff;
            first [ left; apply N.leb_gt; lia | right; apply N.leb_gt; lia ] ].
Qed.

Lemma fromhex_digits (n : nat) (s : string) :
  String.length s = 2 * n →
  forallb (λ c, bool_decide (is_Some (ObjectId.hex_digit c))) (String.list_ascii_of_string s) = true →
  ∃ o, ObjectId.fromhex s = Some o ∧ length o = n ∧ Forall (λ b, (b < 256)%N) o.
Proof.
  revert s. induction n as [|n IH]; intros s Hlen Hall.
  - destruct s; [by exists [] | simpl in Hlen; lia].
  - destruct s as [|c [|c' rest]]; simpl in Hlen; try lia.
    cbn [String.list_ascii_of_string forallb] in Hall.
    apply andb_prop in Hall as [Hc Hall]. apply andb_prop in Hall as [Hc' Hall].
    apply bool_decide_eq_true in Hc as [top Htop].
    apply bool_decide_eq_true in Hc' as [bot Hbot].
    destruct (hex_digit_Some _ _ Htop) as [Htop16 Hspace].
    destruct (hex_digit_Some _ _ Hbot) as [Hbot16 _].
    destruct (IH rest) as (o & Ho & Hlo & Hbytes); [lia | done |].
    exists ((top * 16 + bot)%N :: o).
    cbn [ObjectId.fromhex]. rewrite Hspace, Htop, Hbot, Ho.
    split; [done|]. split; [by rewrite <- Hlo|]. constructor; [lia | done].
Qed.

(** [ObjectId] reads 24 hexadecimal digits as a twelve-byte
    identifier. *)
Lemma hex24_of_str (s : string) :
  hex24 s = true → ∃ oid, ObjectId.of_str s = Some oid ∧ generated oid.
Proof.
  unfold hex24. intros H. apply andb_prop in H as [Hlen Hall].
  apply bool_decide_eq_true in Hlen.
  destruct (fromhex_digits 12 s) as (o & Ho & Hlo & Hbytes); [by rewrite Hlen | done |].
  exists o. unfold ObjectId.of_str. by rewrite decide_True.
Qed.

(** The records of the stored documents in [_id] order, and every page
    of [get] as a slice of them. *)
Lemma sorted_records_pages (w : world) :
  quiet 1 (faults w) = true →
  map_Forall (λ _ body, is_review body) (reviews w) →
  ∃ (all : list (ObjectId.t * dict)) (recs : list ReviewFromDB.t),
    all ≡ₚ map_to_list (reviews w)
    ∧ StronglySorted key_le all
    ∧ Forall2 (λ kv rec, record_of kv rec
                         ∧ ReviewFromDB.id rec = Some (ObjectId.to_str kv.1)) all recs
    ∧ length recs = size (reviews w)
    ∧ ∀ page_number per_page, (1 ≤ page_number)%Z → (0 < per_page)%Z →
        ((page_number - 1) * per_page < 2 ^ 63)%Z → (per_page < 2 ^ 63)%Z →
        ReviewService.get page_number per_page w
        = (Returned (take (Z.to_nat per_page)
                       (drop (Z.to_nat ((page_number - 1) * per_page)) recs)),
           advance w).
Proof.
  intros Hq Hrev.
  set (all := merge_sort key_le (map_to_list (reviews w))).
  assert (all ≡ₚ map_to_list (reviews w)) as Hperm by apply merge_sort_Permutation.
  assert (Forall (λ kv, is_review kv.2) all) as Hall.
  { rewrite Hperm. apply map_Forall_to_list in Hrev.
    eapply Forall_impl; [exact Hrev|]. by intros [k body]. }
  destruct (records_of_reviews all Hall) as [recs Hrecs].
  exists all, recs. split; [done|]. split; [apply (StronglySorted_merge_sort _)|].
  split; [done|]. split.
  { rewrite <- (Forall2_length _ _ _ Hrecs), Hperm. apply length_map_to_list. }
  intros page_number per_page Hp Hpp Hskip Hsize. rewrite get_run.
  rewrite (proj2 (Z.ltb_ge _ _)) by nia. rewrite (proj2 (Z.ltb_ge _ _)) by lia.
  rewrite (quiet_next _ _ Hq), fits_int64_page by done. apply mapM_run.
  unfold cursor_documents. cbn [sort_by_id c_skip c_limit].
  rewrite (proj2 (Z.eqb_neq _ _)) by lia.
  rewrite Zabs2Nat.abs_nat_nonneg by lia. fold all.
  rewrite <- fmap_take, take_idemp.
  apply Forall2_fmap_l, Forall2_take, Forall2_drop.
  eapply Forall2_impl; [exact Hrecs|]. intros kv rec [Hrec _]. exact Hrec.
Qed.

(** Every page of [get] is a slice of one list.  On a collection of
    review documents and with a fetch that meets no fault there is one
    list [recs], the records of all stored documents in non-decreasing
    order of [_id], one record per document, such that for every
    [page_number ≥ 1] and [per_page > 0], the skip count and the page
    size below [2^63], the call returns the [per_page] records of [recs]
    after the first [(page_number - 1) * per_page].
    So the pages of one size do not overlap and, read in order, list
    every review once. *)
Theorem get_pages_are_slices (w : world) :
  quiet 1 (faults w) = true →
  map_Forall (λ _ body, is_review body) (reviews w) →
  ∃ (all : list (ObjectId.t * dict)) (recs : list ReviewFromDB.t),
    all ≡ₚ map_to_list (reviews w)
    ∧ StronglySorted key_le all
    ∧ Forall2 (λ kv rec, record_of kv rec
                         ∧ ReviewFromDB.id rec = Some (ObjectId.to_str kv.1)) all recs
    ∧ length recs = size (reviews w)
    ∧ ∀ page_number per_page, (1 ≤ page_number)%Z → (0 < per_page)%Z →
        ((page_number - 1) * per_page < 2 ^ 63)%Z → (per_page < 2 ^ 63)%Z →
        ReviewService.get page_number per_page w
        = (Returned (take (Z.to_nat per_page)
                       (drop (Z.to_nat ((page_number - 1) * per_page)) recs)),
           advance w).
Proof. exact (sorted_records_pages w). Qed.

(** The identifiers [get] lists are the ones [update] and [remove]
    take.  On a collection of review documents stored under generated
    identifiers, every record a page holds carries an [id] that
    [ObjectId] reads back as the [_id] of a stored document, and the
    record's film and user are that document's. *)
Theorem get_lists_usable_identifiers (w w' : world) (page_number per_page : Z)
    (recs : list ReviewFromDB.t) (rec : ReviewFromDB.t) :
  (1 ≤ page_number)%Z →
  (0 < per_page)%Z →
  map_Forall (λ oid body, generated oid ∧ is_review body) (reviews w) →
  ReviewService.get page_number per_page w = (Returned recs, w') →
  rec ∈ recs →
  ∃ review_id oid body,
    ReviewFromDB.id rec = Some review_id
    ∧ ObjectId.of_str review_id = Some oid
    ∧ reviews w !! oid = Some body
    ∧ review_of (ReviewFromDB.film_id rec) (ReviewFromDB.user_id rec) body.
Proof.
  intros Hp Hpp Hrev Hget Hin.
  rewrite get_run in Hget.
  rewrite (proj2 (Z.ltb_ge _ _)) in Hget by nia.
  rewrite (proj2 (Z.ltb_ge _ _)) in Hget by lia.
  destruct (next_fault w); [discriminate Hget|].
  destruct (fits_int64 _ && fits_int64 _); [|discriminate Hget].
  set (page := take (Z.to_nat per_page) (cursor_documents _ _)) in Hget.
  pose proof (mapM_new_world page (advance w)) as Hw'.
  rewrite Hget in Hw'. cbn [snd] in Hw'. subst w'.
  assert (Forall (λ d, ∃ oid body, reviews w !! oid = Some body ∧ d = raw_doc oid body) page)
    as Hpage.
  { unfold page, cursor_documents. cbn [sort_by_id c_skip c_limit].
    apply Forall_take. apply Forall_fmap.
    destruct (per_page =? 0)%Z; [|apply Forall_take]; apply Forall_drop;
      rewrite merge_sort_Permutation; apply Forall_forall; intros [k b] Hkb;
      apply elem_of_map_to_list in Hkb; by exists k, b. }
  clearbody page. revert recs Hget Hin.
  induction Hpage as [|d page (oid & body & Hb & ->) _ IH]; intros recs Hget Hin.
  - injection Hget as <-. by apply not_elem_of_nil in Hin.
  - cbn [mapM] in Hget. rewrite bind_run in Hget.
    destruct (Hrev _ _ Hb) as [Hgen (f & u & Hf & Hu)].
    destruct (record_of_review (oid, body)) as [r [Hr Hid]]; [by exists f, u|].
    unfold record_of in Hr. cbn [fst snd] in Hr, Hid.
    rewrite (Hr (advance w)) in Hget. rewrite bind_run in Hget.
    destruct (mapM ReviewFromDB.new page (advance w)) as [[rest|e] w1] eqn:Hrest;
      [|discriminate Hget].
    pose proof (mapM_new_world page (advance w)) as Hw. rewrite Hrest in Hw.
    simpl in Hw. subst w1. injection Hget as <-.
    apply elem_of_cons in Hin as [-> | Hin]; [|by apply (IH rest)].
    exists (ObjectId.to_str oid), oid, body. split; [done|].
    split; [by apply of_str_to_str|]. split; [done|].
    specialize (Hr w). unfold ReviewFromDB.new, raw_doc in Hr.
    rewrite !lookup_insert_ne in Hr by done. rewrite Hf, Hu in Hr.
    injection Hr as <-. by split.
Qed.

(** Insert, then delete.  After an [add] that returned under a generated
    identifier, [remove] with the string form of that identifier (its
    round trip meeting no fault) returns, and the collection is what it
    was before the [add]. *)
Theorem add_then_remove_restores (w w1 : world) (new_oid : ObjectId.t)
    (user_id : string) (data : ReviewIn.t) (res : option dict) :
  generated new_oid →
  ReviewService.add new_oid user_id data w = (Returned res, w1) →
  quiet 1 (faults w1) = true →
  ∃ w2, ReviewService.remove (ObjectId.to_str new_oid) w1 = (Returned (), w2)
        ∧ reviews w2 = reviews w
        ∧ logs w2 = logs w.
Proof.
  intros Hgen Hadd Hq.
  apply add_returned_inv in Hadd as (_ & Hfresh & _ & Hst & Hlog).
  rewrite remove_run, (of_str_to_str _ Hgen), (quiet_next _ _ Hq), Hst.
  rewrite lookup_insert_eq. eexists. split; [reflexivity|].
  cbn [with_reviews advance reviews logs]. split; [|done].
  by apply delete_insert_id.
Qed.

(** Delete, then delete again.  After a [remove] that deleted a
    document, a second [remove] with the same identifier fails with
    NotFound (404) and changes nothing. *)
Theorem remove_twice_not_found (w : world) (review_id : string) (oid : ObjectId.t) :
  ObjectId.of_str review_id = Some oid →
  is_Some (reviews w !! oid) →
  quiet 2 (faults w) = true →
  ∃ w1,
    ReviewService.remove review_id w = (Returned (), w1)
    ∧ ReviewService.remove review_id w1
      = (Raised (HTTPException 404 ("Not found review " +:+ review_id +:+ " for deletion")),
         advance w1)
    ∧ reviews (advance w1) = reviews w1.
Proof.
  intros Hid [body Hb] Hq.
  rewrite remove_run, Hid, (quiet_next _ _ Hq), Hb.
  eexists. split; [reflexivity|]. split; [|done].
  apply quiet_advance in Hq.
  rewrite remove_run, Hid. unfold next_fault at 1. cbn [with_reviews faults reviews].
  fold (next_fault (advance w)). rewrite (quiet_next _ _ Hq).
  by rewrite lookup_delete_eq.
Qed.


(** Insert, then list.  After an [add] that returned, on a collection of
    review documents, [get] of a first page large enough for the whole
    collection and smaller than [2^63] (its fetch meeting no fault)
    returns one record more than
    there were documents before, and among them the record of the new
    review: its [id] is the string form of the generated identifier, its
    film and user are the submitted ones. *)
Theorem add_then_get_lists_review (w w1 : world) (new_oid : ObjectId.t)
    (user_id : string) (data : ReviewIn.t) (res : option dict) (per_page : Z) :
  ReviewService.add new_oid user_id data w = (Returned res, w1) →
  map_Forall (λ _ body, is_review body) (reviews w) →
  quiet 1 (faults w1) = true →
  (Z.of_nat (size (reviews w)) < per_page)%Z →
  (per_page < 2 ^ 63)%Z →
  ∃ recs rec,
    ReviewService.get 1 per_page w1 = (Returned recs, advance w1)
    ∧ length recs = S (size (reviews w))
    ∧ rec ∈ recs
    ∧ ReviewFromDB.id rec = Some (ObjectId.to_str new_oid)
    ∧ ReviewFromDB.film_id rec = ReviewIn.film_id data
    ∧ ReviewFromDB.user_id rec = user_id.
Proof.
  intros Hadd Hrev Hq Hbig Hsmall.
  apply add_returned_inv in Hadd as (_ & Hfresh & _ & Hst & _).
  destruct (stored_fields_review_of user_id data) as [Hfilm Huser].
  assert (map_Forall (λ _ body, is_review body) (reviews w1)) as Hrev1.
  { rewrite Hst. apply map_Forall_insert_2; [|done]. by eexists _, _. }
  destruct (sorted_records_pages w1 Hq Hrev1) as (all & recs & Hperm & _ & Hrecs & Hlen & Hpages).
  assert (size (reviews w1) = S (size (reviews w))) as Hsize
    by (rewrite Hst; by apply map_size_insert_None).
  assert ((new_oid, stored_fields user_id data) ∈ all) as Hin.
  { rewrite Hperm. apply elem_of_map_to_list. rewrite Hst. apply lookup_insert_eq. }
  apply list_elem_of_lookup in Hin as [i Hi].
  destruct (Forall2_lookup_l _ _ _ _ _ Hrecs Hi) as (rec & Hrec & Hof & Hid).
  exists recs, rec. split; [|split; [lia|]].
  - rewrite (Hpages 1%Z per_page) by lia.
    replace ((1 - 1) * per_page)%Z with 0%Z by lia.
    change (Z.to_nat 0) with 0%nat. rewrite drop_0. by rewrite take_ge by lia.
  - split; [by eapply list_elem_of_lookup_2|]. split; [done|].
    specialize (Hof w). cbn [fst snd] in Hof. unfold ReviewFromDB.new, raw_doc in Hof.
    rewrite !lookup_insert_ne in Hof by done. rewrite Hfilm, Huser in Hof.
    by injection Hof as <-.
Qed.

(** * The statements at work on sample data *)

Example of_str_sample : ObjectId.of_str Sample.id_a = Some Sample.oid_a.
Proof. by_evaluation. Qed.

Example of_str_other : ObjectId.of_str Sample.id_b = Some Sample.oid_b.
Proof. by_evaluation. Qed.

Example of_str_upper_case :
  ObjectId.of_str "650F1A2B3C4D5E6F70819203"
  = Some [101; 15; 26; 43; 60; 77; 94; 111; 112; 129; 146; 3]%N.
Proof. by_evaluation. Qed.

Example of_str_too_short : ObjectId.of_str "abc" = None.
Proof. by_evaluation. Qed.

Example of_str_not_hex : ObjectId.of_str "zzzzzzzzzzzzzzzzzzzzzzzz" = None.
Proof. by_evaluation. Qed.

Example to_str_sample : ObjectId.to_str Sample.oid_b = Sample.id_b.
Proof. by_evaluation. Qed.

Example add_first :
  ReviewService.add Sample.oid_a "u1" Sample.great Sample.empty
  = (Returned (Some (raw_doc Sample.oid_a (stored_fields "u1" Sample.great))), Sample.one).
Proof. by_evaluation. Qed.

Example add_second :
  ReviewService.add Sample.oid_b "u2" Sample.other Sample.one
  = (Returned (Some (raw_doc Sample.oid_b (stored_fields "u2" Sample.other))), Sample.two).
Proof. by_evaluation. Qed.

Example add_duplicate_identifier :
  ReviewService.add Sample.oid_a "u2" Sample.other Sample.one
  = (Raised (HTTPException 500 "Error while adding review by u2 for movie f2"),
     {| reviews := reviews Sample.one;
        logs := [LogError "Error while adding review by u2 for movie f2"
                   (DuplicateKeyError Sample.oid_a)];
        faults := [] |}).
Proof. by_evaluation. Qed.

Example add_insert_fault_on_sample :
  ReviewService.add Sample.oid_b "u2" Sample.other
    {| reviews := reviews Sample.one; logs := []; faults := [None; Some "timed out"] |}
  = (Raised (HTTPException 500 "Error while adding review by u2 for movie f2"),
     {| reviews := reviews Sample.one;
        logs := [LogError "Error while adding review by u2 for movie f2"
                   (PyMongoError "timed out")];
        faults := [] |}).
Proof. by_evaluation. Qed.

Example get_first_page :
  ReviewService.get 1 50 Sample.two
  = (Returned
       [ {| ReviewFromDB.id := Some Sample.id_a; ReviewFromDB.film_id := "f1";
            ReviewFromDB.user_id := "u1";
            ReviewFromDB.content := {[ "text" := VStr "great" ]} |};
         {| ReviewFromDB.id := Some Sample.id_b; ReviewFromDB.film_id := "f2";
            ReviewFromDB.user_id := "u2";
            ReviewFromDB.content := {[ "text" := VStr "fine" ]} |} ],
     Sample.two).
Proof. by_evaluation. Qed.

Example get_second_page_of_one :
  ReviewService.get 2 1 Sample.two
  = (Returned
       [ {| ReviewFromDB.id := Some Sample.id_b; ReviewFromDB.film_id := "f2";
            ReviewFromDB.user_id := "u2";
            ReviewFromDB.content := {[ "text" := VStr "fine" ]} |} ],
     Sample.two).
Proof. by_evaluation. Qed.

Example get_past_the_end : ReviewService.get 3 1 Sample.two = (Returned [], Sample.two).
Proof. by_evaluation. Qed.

Example get_negative_skip :
  ReviewService.get 0 1 Sample.two
  = (Raised (HTTPException 500 "Error while getting reviews"),
     {| reviews := reviews Sample.two;
        logs := [LogError "Error while getting reviews" (ValueError "skip must be >= 0")];
        faults := [] |}).
Proof. by_evaluation. Qed.

Example update_changes_text :
  ReviewService.update Sample.encode_name Sample.id_a
    {| ReviewFromDB.id := None; ReviewFromDB.film_id := "f1"; ReviewFromDB.user_id := "u1";
       ReviewFromDB.content := {[ "text" := VStr "bad" ]} |} Sample.one
  = (Returned (Some (raw_doc Sample.oid_a (stored_fields "u1" Sample.bad))),
     {| reviews := {[ Sample.oid_a := stored_fields "u1" Sample.bad ]};
        logs := []; faults := [] |}).
Proof. by_evaluation. Qed.

Example update_alias_refused :
  ReviewService.update Sample.encode_alias Sample.id_a Sample.great_record Sample.one
  = (Raised (WriteError
       "Performing an update on the path '_id' would modify the immutable field '_id'"),
     Sample.one).
Proof. by_evaluation. Qed.

Example get_huge_page :
  ReviewService.get 1 9223372036854775808 Sample.two = (Raised OverflowError, Sample.two).
Proof. by_evaluation. Qed.

Example get_huge_skip :
  ReviewService.get 9223372036854775809 1 Sample.two = (Raised OverflowError, Sample.two).
Proof. by_evaluation. Qed.

Example add_reread_fault_on_sample :
  ReviewService.add Sample.oid_a "u1" Sample.great
    {| reviews := ∅; logs := []; faults := [None; None; Some "connection lost"] |}
  = (Raised (PyMongoError "connection lost"), Sample.one).
Proof. by_evaluation. Qed.

Example update_malformed :
  ReviewService.update Sample.encode_name "abc" Sample.great_record Sample.one
  = (Raised (InvalidId "abc"), Sample.one).
Proof. by_evaluation. Qed.

Example of_str_not_an_id : ObjectId.of_str "not-an-object-id" = None.
Proof. by_evaluation. Qed.

Example remove_not_an_id :
  ReviewService.remove "not-an-object-id" Sample.two
  = (Raised (InvalidId "not-an-object-id"), Sample.two).
Proof. by_evaluation. Qed.


Example hex24_sample : hex24 Sample.id_a = true.
Proof. by_evaluation. Qed.

Example remove_malformed :
  ReviewService.remove "abc" Sample.one = (Raised (InvalidId "abc"), Sample.one).
Proof. by_evaluation. Qed.

(** Facts about the sample data that the instances below rest on. *)

Lemma sample_oid_a_generated : generated Sample.oid_a.
Proof. split; [reflexivity|]. repeat constructor. Qed.

Lemma sample_oid_b_generated : generated Sample.oid_b.
Proof. split; [reflexivity|]. repeat constructor. Qed.

Lemma sample_one_quiet : quiet 1 (faults Sample.one) = true.
Proof. by_evaluation. Qed.

Lemma sample_one_quiet2 : quiet 2 (faults Sample.one) = true.
Proof. by_evaluation. Qed.

Lemma sample_two_quiet : quiet 1 (faults Sample.two) = true.
Proof. by_evaluation. Qed.

Lemma sample_one_a : reviews Sample.one !! Sample.oid_a = Some (stored_fields "u1" Sample.great).
Proof. by_evaluation. Qed.

Lemma sample_one_b : reviews Sample.one !! Sample.oid_b = None.
Proof. by_evaluation. Qed.

Lemma sample_two_a : reviews Sample.two !! Sample.oid_a = Some (stored_fields "u1" Sample.great).
Proof. by_evaluation. Qed.



Lemma sample_same_film : ReviewIn.film_id Sample.bad = ReviewIn.film_id Sample.great.
Proof. by_evaluation. Qed.

Lemma sample_great_record_stored :
  Sample.encode_name Sample.great_record ⊆ raw_doc Sample.oid_a (stored_fields "u1" Sample.great).
Proof.
  replace (Sample.encode_name Sample.great_record) with (stored_fields "u1" Sample.great)
    by by_evaluation.
  apply insert_subseteq. by_evaluation.
Qed.


Lemma sample_two_reviews : map_Forall (λ _ body, is_review body) (reviews Sample.two).
Proof.
  apply map_Forall_insert_2.
  - exists "f2", "u2". split; by_evaluation.
  - apply map_Forall_singleton. exists "f1", "u1". split; by_evaluation.
Qed.

(** ** Instances of the theorems *)

(** The second submission of the spec's example is refused. *)
Lemma add_twice_conflict_witness :
  ∃ detail,
    ReviewService.add Sample.oid_b "u1" Sample.bad Sample.one
      = (Raised (HTTPException 409 detail), advance Sample.one)
    ∧ detail = "Review by user " +:+ "u1" +:+ " for movie "
               +:+ ReviewIn.film_id Sample.great +:+ " already exist"
    ∧ size (reviews_of_pair (ReviewIn.film_id Sample.great) "u1" (reviews Sample.one)) = 1.
Proof.
  destruct (add_twice_conflict Sample.empty Sample.one Sample.oid_a Sample.oid_b "u1"
              Sample.great Sample.bad _ add_first sample_same_film sample_one_quiet)
    as (detail & Hrun & Hdetail & _ & _ & _ & Hsize).
  exists detail. split; [exact Hrun|]. split; [exact Hdetail | exact Hsize].
Defined.

(** The second page of size one of a collection of two holds one
    record. *)
Lemma get_page_witness :
  ∃ recs,
    ReviewService.get 2 1 Sample.two = (Returned recs, advance Sample.two)
    ∧ (length recs ≤ Z.to_nat 1)%nat.
Proof.
  destruct (get_page Sample.two 2 1 ltac:(lia) ltac:(lia) ltac:(lia) ltac:(lia)
              sample_two_quiet sample_two_reviews)
    as (all & page & recs & Hrun & _ & _ & _ & _ & _ & Hlen & _).
  exists recs. split; [exact Hrun | exact Hlen].
Defined.

(** C2 fails on a page size that BSON cannot hold: [get(1, 2^63)] meets
    the bounds of the claim and returns no page; the fetch raises
    [OverflowError]. *)
Lemma get_huge_page_is_refused :
  (1 ≤ 1)%Z ∧ (0 < 9223372036854775808)%Z
  ∧ ReviewService.get 1 9223372036854775808 Sample.two = (Raised OverflowError, Sample.two)
  ∧ ¬ ∃ recs w', ReviewService.get 1 9223372036854775808 Sample.two = (Returned recs, w').
Proof.
  split; [lia|]. split; [lia|]. split; [exact get_huge_page|].
  intros (recs & w' & H). rewrite get_huge_page in H. discriminate H.
Qed.

Lemma update_identical_returns_none_witness :
  ReviewService.update Sample.encode_name Sample.id_a Sample.great_record Sample.one
  = (Returned None, advance (advance Sample.one)).
Proof.
  exact (proj1 (update_identical_returns_none Sample.encode_name Sample.one Sample.id_a
                  Sample.oid_a (stored_fields "u1" Sample.great) Sample.great_record
                  of_str_sample sample_one_a sample_great_record_stored sample_one_quiet2)).
Defined.

Lemma update_absent_not_found_witness :
  ReviewService.update Sample.encode_name "abc" Sample.great_record Sample.one
  = (Raised (InvalidId "abc"), Sample.one)
  ∧ ReviewService.update Sample.encode_name Sample.id_b Sample.great_record Sample.one
    = (Raised (HTTPException 404 ("Not found review " +:+ Sample.id_b +:+ " for update")),
       advance Sample.one).
Proof.
  split.
  - exact (proj1 (update_absent_not_found Sample.encode_name Sample.one "abc"
                    Sample.great_record) of_str_too_short).
  - exact (proj2 (proj2 (proj2 (update_absent_not_found Sample.encode_name Sample.one
                                  Sample.id_b Sample.great_record)
                           Sample.oid_b of_str_other sample_oid_b_generated sample_one_b))
             sample_one_quiet).
Defined.

(** C5 fails on a malformed identifier.  "abc" is the identifier of no
    stored document, yet [update] with it does not end in the NotFound
    failure: it ends in [InvalidId]. *)
Lemma update_malformed_is_not_404 :
  ReviewService.update Sample.encode_name "abc" Sample.great_record Sample.one
  = (Raised (InvalidId "abc"), Sample.one)
  ∧ (∀ oid, ObjectId.of_str "abc" = Some oid → reviews Sample.one !! oid = None)
  ∧ ¬ ∃ w', ReviewService.update Sample.encode_name "abc" Sample.great_record Sample.one
            = (Raised (HTTPException 404 "Not found review abc for update"), w').
Proof.
  split; [exact update_malformed|]. split.
  - intros oid. rewrite of_str_too_short. discriminate.
  - intros [w' H]. rewrite update_malformed in H. discriminate H.
Qed.

Lemma remove_absent_or_present_witness :
  ReviewService.remove Sample.id_b Sample.one
    = (Raised (HTTPException 404 ("Not found review " +:+ Sample.id_b +:+ " for deletion")),
       advance Sample.one)
  ∧ ∃ w', ReviewService.remove Sample.id_a Sample.two = (Returned (), w')
          ∧ reviews w' !! Sample.oid_a = None
          ∧ reviews w' !! Sample.oid_b = reviews Sample.two !! Sample.oid_b.
Proof.
  split.
  - exact (proj1 (proj1 (remove_absent_or_present Sample.one Sample.id_b Sample.oid_b
                           of_str_other sample_oid_b_generated sample_one_quiet)
                    sample_one_b)).
  - destruct (proj2 (remove_absent_or_present Sample.two Sample.id_a Sample.oid_a
                       of_str_sample sample_oid_a_generated sample_two_quiet)
                (ex_intro _ _ sample_two_a))
      as (w' & Hrun & _ & Hgone & Hothers & _).
    exists w'. split; [exact Hrun|]. split; [exact Hgone|].
    apply Hothers. discriminate.
Defined.

(** C6 fails on a malformed identifier.  "not-an-object-id" is the
    identifier of no stored document, yet [remove] with it does not end
    in the NotFound failure: it ends in [InvalidId]. *)
Lemma remove_not_an_id_is_not_404 :
  ReviewService.remove "not-an-object-id" Sample.two
  = (Raised (InvalidId "not-an-object-id"), Sample.two)
  ∧ (∀ oid, ObjectId.of_str "not-an-object-id" = Some oid →
       reviews Sample.two !! oid = None)
  ∧ ¬ ∃ w', ReviewService.remove "not-an-object-id" Sample.two
            = (Raised (HTTPException 404 "Not found review not-an-object-id for deletion"),
               w').
Proof.
  split; [exact remove_not_an_id|]. split.
  - intros oid. rewrite of_str_not_an_id. discriminate.
  - intros [w' H]. rewrite remove_not_an_id in H. discriminate H.
Qed.


(** C8 fails on a malformed identifier.  "abc" is the identifier of no
    stored document, yet [remove("abc")] does not end in the NotFound
    failure: it ends in [InvalidId]. *)
Lemma remove_malformed_is_not_404 :
  ReviewService.remove "abc" Sample.one = (Raised (InvalidId "abc"), Sample.one)
  ∧ (∀ oid, ObjectId.of_str "abc" = Some oid → reviews Sample.one !! oid = None)
  ∧ ¬ ∃ w', ReviewService.remove "abc" Sample.one
            = (Raised (HTTPException 404 "Not found review abc for deletion"), w').
Proof.
  split; [exact remove_malformed|]. split.
  - intros oid. rewrite of_str_too_short. discriminate.
  - intros [w' H]. rewrite remove_malformed in H. discriminate H.
Qed.

Lemma remove_malformed_or_absent_witness :
  ObjectId.of_str "abc" = None
  ∧ ReviewService.remove "abc" Sample.one = (Raised (InvalidId "abc"), Sample.one)
  ∧ ReviewService.remove Sample.id_b Sample.one
    = (Raised (HTTPException 404 ("Not found review " +:+ Sample.id_b +:+ " for deletion")),
       advance Sample.one).
Proof.
  split; [|split].
  - exact (proj1 (remove_malformed_or_absent Sample.one "abc") ltac:(discriminate)).
  - exact (proj1 (proj2 (remove_malformed_or_absent Sample.one "abc")) of_str_too_short).
  - exact (proj2 (proj2 (remove_malformed_or_absent Sample.one Sample.id_b))
             Sample.oid_b of_str_other sample_oid_b_generated sample_one_quiet sample_one_b).
Defined.



Lemma sample_one_others : reviews_of_pair (ReviewIn.film_id Sample.other) "u2" (reviews Sample.one) = ∅.
Proof.
  apply find_first_pair_None. by_evaluation.
Qed.

Lemma sample_one_per_pair : one_review_per_pair (reviews Sample.one).
Proof.
  intros f u. unfold reviews_of_pair.
  etransitivity; [apply map_subseteq_size, map_filter_subseteq|].
  change (reviews Sample.one) with ({[ Sample.oid_a := stored_fields "u1" Sample.great ]}
                                     : gmap ObjectId.t dict).
  by rewrite map_size_singleton.
Qed.

Lemma add_keeps_one_review_per_pair_witness :
  one_review_per_pair
    (reviews (ReviewService.add Sample.oid_b "u1" Sample.bad Sample.one).2)
  ∧ one_review_per_pair
      (reviews (ReviewService.add Sample.oid_b "u2" Sample.other Sample.one).2).
Proof.
  split.
  - exact (add_keeps_one_review_per_pair Sample.one Sample.oid_b "u1" Sample.bad
             sample_one_per_pair).
  - exact (add_keeps_one_review_per_pair Sample.one Sample.oid_b "u2" Sample.other
             sample_one_per_pair).
Defined.

Lemma add_insert_fault_logged_witness :
  ReviewService.add Sample.oid_b "u2" Sample.other
    {| reviews := reviews Sample.one; logs := []; faults := [None; Some "timed out"] |}
  = (Raised (HTTPException 500
               ("Error while adding review by " +:+ "u2" +:+ " for movie "
                +:+ ReviewIn.film_id Sample.other)),
     {| reviews := reviews Sample.one;
        logs := [] ++ [LogError ("Error while adding review by " +:+ "u2" +:+ " for movie "
                                 +:+ ReviewIn.film_id Sample.other)
                         (PyMongoError "timed out")];
        faults := [] |}).
Proof.
  exact (add_insert_fault_logged (reviews Sample.one) [] "timed out" [] Sample.oid_b "u2"
           Sample.other sample_one_others).
Defined.





(** ** Instances of the further properties *)


Lemma sample_two_quiet2 : quiet 2 (faults Sample.two) = true.
Proof. by_evaluation. Qed.

Lemma sample_one_has_pair :
  reviews_of_pair (ReviewIn.film_id Sample.great) "u1" (reviews Sample.one) ≠ ∅.
Proof.
  intros E.
  assert (reviews_of_pair (ReviewIn.film_id Sample.great) "u1" (reviews Sample.one)
            !! Sample.oid_a = Some (stored_fields "u1" Sample.great)) as H.
  { apply map_lookup_filter_Some. split; [exact sample_one_a|].
    apply stored_fields_review_of. }
  rewrite E, lookup_empty in H. discriminate H.
Qed.

Lemma sample_two_generated_reviews :
  map_Forall (λ oid body, generated oid ∧ is_review body) (reviews Sample.two).
Proof.
  apply map_Forall_insert_2.
  - split; [exact sample_oid_b_generated|]. exists "f2", "u2". split; by_evaluation.
  - apply map_Forall_singleton. split; [exact sample_oid_a_generated|].
    exists "f1", "u1". split; by_evaluation.
Qed.


Lemma check_finds_review_of_pair_witness :
  ∃ r,
    ReviewService.check_if_review_exist "f1" "u1" Sample.one = (Returned r, advance Sample.one)
    ∧ (r = None ↔ reviews_of_pair "f1" "u1" (reviews Sample.one) = ∅).
Proof.
  destruct (check_finds_review_of_pair Sample.one "f1" "u1" sample_one_quiet)
    as (r & Hrun & Hnone & _).
  exists r. split; [exact Hrun | exact Hnone].
Defined.

Lemma add_conflict_iff_review_stored_witness :
  ReviewService.add Sample.oid_b "u1" Sample.great Sample.one
  = (Raised (HTTPException 409 ("Review by user " +:+ "u1" +:+ " for movie "
                                +:+ ReviewIn.film_id Sample.great +:+ " already exist")),
     advance Sample.one).
Proof.
  exact (proj2 (add_conflict_iff_review_stored Sample.one Sample.oid_b "u1" Sample.great
                  sample_one_quiet) sample_one_has_pair).
Defined.


Lemma get_refuses_bad_arguments_witness :
  ReviewService.get 0 1 Sample.two
  = (Raised (HTTPException 500 "Error while getting reviews"),
     {| reviews := reviews Sample.two;
        logs := logs Sample.two ++ [LogError "Error while getting reviews"
                                      (ValueError "skip must be >= 0")];
        faults := faults Sample.two |})
  ∧ ReviewService.get 1 (-5) Sample.two
    = (Raised (ValueError "length must be non-negative"), Sample.two).
Proof.
  split.
  - exact (proj1 (get_refuses_bad_arguments Sample.two 0 1) ltac:(lia)).
  - exact (proj2 (get_refuses_bad_arguments Sample.two 1 (-5)) ltac:(lia) ltac:(lia)).
Defined.

Lemma get_pages_are_slices_witness :
  ∃ recs,
    length recs = size (reviews Sample.two)
    ∧ ReviewService.get 2 1 Sample.two
      = (Returned (take (Z.to_nat 1) (drop (Z.to_nat ((2 - 1) * 1)) recs)),
         advance Sample.two).
Proof.
  destruct (get_pages_are_slices Sample.two sample_two_quiet sample_two_reviews)
    as (all & recs & _ & _ & _ & Hlen & Hpages).
  exists recs. split; [exact Hlen|].
  exact (Hpages 2%Z 1%Z ltac:(lia) ltac:(lia) ltac:(lia) ltac:(lia)).
Defined.

Lemma get_lists_usable_identifiers_witness :
  ∃ review_id oid body,
    Some Sample.id_b = Some review_id
    ∧ ObjectId.of_str review_id = Some oid
    ∧ reviews Sample.two !! oid = Some body
    ∧ review_of "f2" "u2" body.
Proof.
  exact (get_lists_usable_identifiers Sample.two Sample.two 2 1 _ _
           ltac:(lia) ltac:(lia) sample_two_generated_reviews get_second_page_of_one
           (list_elem_of_here _ _)).
Defined.

Lemma add_then_remove_restores_witness :
  ∃ w2, ReviewService.remove (ObjectId.to_str Sample.oid_a) Sample.one = (Returned (), w2)
        ∧ reviews w2 = reviews Sample.empty
        ∧ logs w2 = logs Sample.empty.
Proof.
  exact (add_then_remove_restores Sample.empty Sample.one Sample.oid_a "u1" Sample.great _
           sample_oid_a_generated add_first sample_one_quiet).
Defined.

Lemma remove_twice_not_found_witness :
  ∃ w1,
    ReviewService.remove Sample.id_a Sample.two = (Returned (), w1)
    ∧ ReviewService.remove Sample.id_a w1
      = (Raised (HTTPException 404 ("Not found review " +:+ Sample.id_a +:+ " for deletion")),
         advance w1)
    ∧ reviews (advance w1) = reviews w1.
Proof.
  exact (remove_twice_not_found Sample.two Sample.id_a Sample.oid_a of_str_sample
           (ex_intro _ _ sample_two_a) sample_two_quiet2).
Defined.


Lemma sample_empty_reviews : map_Forall (λ _ body, is_review body) (reviews Sample.empty).
Proof. apply map_Forall_empty. Qed.

Lemma sample_empty_small : (Z.of_nat (size (reviews Sample.empty)) < 50)%Z.
Proof. vm_compute. reflexivity. Qed.

Lemma add_then_get_lists_review_witness :
  ∃ recs rec,
    ReviewService.get 1 50 Sample.one = (Returned recs, advance Sample.one)
    ∧ length recs = S (size (reviews Sample.empty))
    ∧ rec ∈ recs
    ∧ ReviewFromDB.id rec = Some (ObjectId.to_str Sample.oid_a)
    ∧ ReviewFromDB.film_id rec = ReviewIn.film_id Sample.great
    ∧ ReviewFromDB.user_id rec = "u1".
Proof.
  exact (add_then_get_lists_review Sample.empty Sample.one Sample.oid_a "u1" Sample.great _ 50
           add_first sample_empty_reviews sample_one_quiet sample_empty_small ltac:(lia)).
Defined.
